(** * The "other" car port of openpilot: parameter derivation and per-cycle
      state translation with its safety events

    A shallow embedding of [selfdrive/car/other/values.py] and
    [selfdrive/car/other/interface.py].

    - Python [float] is IEEE binary64: Rocq's primitive [float], with its
      comparisons [<?] and [=?] (false on NaN, as in Python).
    - Python [int] is unbounded: [Z].
    - a [dict] is a [gmap]; indexing a missing key raises [KeyError].
    - a local variable that a path never assigns is [None]; reading it raises
      [UnboundLocalError].
    - the capnp messages [car.CarParams], [car.CarState], [car.CarEvent] are
      records; a fresh message holds the schema defaults (0, false, empty
      list, first enumerant, first union member), and a floating-point
      field is a Float32: it holds the binary32 value nearest to the value
      assigned, [f32] of it. *)

From Stdlib Require Import ZArith List.
From Stdlib Require Import Floats.PrimFloat Floats.SpecFloat Floats.FloatOps.
From stdpp Require Import base option list gmap strings.

Set Warnings "-inexact-float".

(** ** Python exceptions on the modelled paths *)

Inductive PyError : Type :=
| UnboundLocalError (name : string)
| KeyError (key : Z).

Definition result (A : Type) : Type := (PyError + A)%type.

Definition Ok {A} (a : A) : result A := inr a.
Definition Raise {A} (e : PyError) : result A := inl e.

#[export] Instance result_ret : MRet result := fun A a => inr a.
#[export] Instance result_bind : MBind result :=
  fun A B f m => match m with inl e => inl e | inr a => f a end.

(** Reading a local variable: bound or [UnboundLocalError]. *)
Definition local {A} (name : string) (v : option A) : result A :=
  match v with Some a => Ok a | None => Raise (UnboundLocalError name) end.

(** [d[k]] on a dict keyed by integers. *)
Definition getitem {A} (d : gmap Z A) (k : Z) : result A :=
  match d !! k with Some a => Ok a | None => Raise (KeyError k) end.

(** [if b: l.append(...)] on a list under construction contributes [when b [...]]. *)
Definition when {A} (b : bool) (l : list A) : list A := if b then l else [].

(** ** values.py *)

Module CAR.
Definition OLD_CAR : string := "OLD_CARS".
End CAR.

Module ECU.
Definition CAM : Z := 0.   (* camera *)
Definition DSU : Z := 1.   (* driving support unit *)
Definition APGS : Z := 2.  (* advanced parking guidance system *)
End ECU.

Definition ECU_FINGERPRINT : gmap Z (list Z) :=
  list_to_map
    [ (ECU.CAM, [0x2e4%Z]);    (* steer torque cmd *)
      (ECU.DSU, [0x343%Z]);    (* accel cmd *)
      (ECU.APGS, [0x835%Z]) ]. (* angle cmd *)

(** The three fingerprint rows of [CAR.OLD_CAR] differ in the length of message
    180 only (8, 1 and 4). *)
Definition OLD_CAR_row (len180 : Z) : gmap Z Z :=
  list_to_map
    [ (36, 8); (37, 8); (170, 8); (180, len180); (186, 4); (253, 8); (254, 8);
      (255, 8); (426, 6); (452, 8); (464, 8); (466, 8); (467, 8); (512, 6);
      (513, 6); (547, 8); (548, 8); (552, 4); (608, 8); (610, 5); (643, 7);
      (705, 8); (740, 5); (800, 8); (835, 8); (836, 8); (849, 4); (869, 7);
      (870, 7); (871, 2); (896, 8); (897, 8); (900, 6); (902, 6); (905, 8);
      (911, 8); (916, 2); (921, 8); (933, 8); (944, 8); (945, 8); (951, 8);
      (955, 4); (956, 8); (979, 2); (998, 5); (999, 7); (1000, 8); (1001, 8);
      (1017, 8); (1041, 8); (1042, 8); (1043, 8); (1044, 8); (1056, 8);
      (1059, 1); (1114, 8); (1161, 8); (1162, 8); (1163, 8); (1196, 8);
      (1222, 8); (1224, 8); (1227, 8); (1235, 8); (1279, 8); (1552, 8);
      (1553, 8); (1556, 8); (1557, 8); (1561, 8); (1562, 8); (1568, 8);
      (1569, 8); (1570, 8); (1571, 8); (1572, 8); (1592, 8); (1596, 8);
      (1597, 8); (1600, 8); (1664, 8); (1779, 8); (1904, 8); (1912, 8);
      (1990, 8); (1998, 8); (2016, 8); (2017, 8); (2018, 8); (2019, 8);
      (2020, 8); (2021, 8); (2022, 8); (2023, 8); (2024, 8) ]%Z.

Definition FINGERPRINTS : gmap string (list (gmap Z Z)) :=
  list_to_map
    [ (CAR.OLD_CAR, [OLD_CAR_row 8; OLD_CAR_row 1; OLD_CAR_row 4]) ].

Definition STEER_THRESHOLD : Z := 100.

Definition NO_DSU_CAR : list string := [].
Definition TSS2_CAR : list string := [].
Definition NO_STOP_TIMER_CAR : list string := [].  (* no resume button press required *)

(** ** Float32 storage *)

(** The schema (cereal's car.capnp, outside the sources) declares every
    floating-point field of the [car] messages Float32 (in lists,
    List(Float32)).  Assigning a Python float stores it as a C [float]: the
    binary32 value nearest to it, ties to even, infinite beyond the binary32
    range; reading the field gives that value back as a Python float.  Zeros,
    infinities and NaN are kept. *)
Definition f32 (x : float) : float :=
  match Prim2SF x with
  | S754_finite s m e => SF2Prim (binary_round 24 128 s m e)
  | _ => x
  end.

(** ** The messages of the [car] schema that the interface fills

    The schema itself (cereal's car.capnp) is outside the sources: the records
    have the fields that interface.py assigns or reads, typed by the values it
    assigns, and the enumerations have the enumerants it names after the
    default one. *)

Module car.

Module CarParams.

Module SafetyModel.
Inductive t : Type := noOutput | honda | toyota.
End SafetyModel.

Module SteerControlType.
Inductive t : Type := torque | angle.
End SteerControlType.

Module LateralPIDTuning.
Record t : Type := mk
  { kpBP : list float; kpV : list float;
    kiBP : list float; kiV : list float;
    kf : float }.
Definition new_message : t := mk [] [] [] [] 0.
End LateralPIDTuning.

Module LateralLQRTuning.
Record t : Type := mk
  { scale : float; ki : float; dcGain : float;
    a : list float; b : list float; c : list float;
    k : list float; l : list float }.
Definition new_message : t := mk 0 0 0 [] [] [] [] [].
End LateralLQRTuning.

(** The union [lateralTuning]; [pid] is its first member. *)
Inductive LateralTuning : Type :=
  | pid (p : LateralPIDTuning.t)
  | indi
  | lqr (q : LateralLQRTuning.t).

Module LongitudinalPIDTuning.
Record t : Type := mk
  { kpBP : list float; kpV : list float;
    kiBP : list float; kiV : list float;
    deadzoneBP : list float; deadzoneV : list float }.
Definition new_message : t := mk [] [] [] [] [] [].
End LongitudinalPIDTuning.

Record t : Type := mk
  { carName : string;
    carFingerprint : string;
    carVin : string;
    isPandaBlack : bool;
    safetyModel : SafetyModel.t;
    safetyParam : Z;
    enableCruise : bool;
    enableGasInterceptor : bool;
    enableCamera : bool;
    enableDsu : bool;
    enableApgs : bool;
    openpilotLongitudinalControl : bool;
    minEnableSpeed : float;
    mass : float;
    wheelbase : float;
    centerToFront : float;
    steerRatio : float;
    steerRatioRear : float;
    rotationalInertia : float;
    tireStiffnessFront : float;
    tireStiffnessRear : float;
    steerActuatorDelay : float;
    steerRateCost : float;
    steerControlType : SteerControlType.t;
    steerLimitAlert : bool;
    steerMaxBP : list float;
    steerMaxV : list float;
    gasMaxBP : list float;
    gasMaxV : list float;
    brakeMaxBP : list float;
    brakeMaxV : list float;
    lateralTuning : LateralTuning;
    longitudinalTuning : LongitudinalPIDTuning.t;
    stoppingControl : bool;
    startAccel : float }.

(** [car.CarParams.new_message()]: every field at its default. *)
Definition new_message : t :=
  {| carName := ""; carFingerprint := ""; carVin := "";
     isPandaBlack := false;
     safetyModel := SafetyModel.noOutput; safetyParam := 0;
     enableCruise := false; enableGasInterceptor := false;
     enableCamera := false; enableDsu := false; enableApgs := false;
     openpilotLongitudinalControl := false;
     minEnableSpeed := 0; mass := 0; wheelbase := 0; centerToFront := 0;
     steerRatio := 0; steerRatioRear := 0; rotationalInertia := 0;
     tireStiffnessFront := 0; tireStiffnessRear := 0;
     steerActuatorDelay := 0; steerRateCost := 0;
     steerControlType := SteerControlType.torque;
     steerLimitAlert := false;
     steerMaxBP := []; steerMaxV := [];
     gasMaxBP := []; gasMaxV := [];
     brakeMaxBP := []; brakeMaxV := [];
     lateralTuning := pid LateralPIDTuning.new_message;
     longitudinalTuning := LongitudinalPIDTuning.new_message;
     stoppingControl := false; startAccel := 0 |}.

End CarParams.

Module CarEvent.
(** An event: its name and one flag per event type. *)
Record t : Type := mk
  { name : string;
    enable : bool;
    preEnable : bool;
    noEntry : bool;
    warning : bool;
    userDisable : bool;
    softDisable : bool;
    immediateDisable : bool;
    permanent : bool }.
Definition new_message : t :=
  mk "" false false false false false false false false.
End CarEvent.

Module CarState.

Module GearShifter.
Inductive t : Type :=
  unknown | park | drive | neutral | reverse | sport | low | brake | eco.
End GearShifter.

Module ButtonEvent.
Module Type_.
Inductive t : Type :=
    unknown | leftBlinker | rightBlinker | accelCruise | decelCruise
  | cancel | altButton1 | altButton2 | altButton3.
End Type_.
Record t : Type := mk { type : Type_.t; pressed : bool }.
Definition new_message : t := mk Type_.unknown false.
End ButtonEvent.

Module WheelSpeeds.
Record t : Type := mk { fl : float; fr : float; rl : float; rr : float }.
End WheelSpeeds.

Module CruiseState.
Record t : Type := mk
  { enabled : bool;
    speed : float;
    available : bool;
    speedOffset : float;
    standstill : bool }.
End CruiseState.

Record t : Type := mk
  { canValid : bool;
    vEgo : float;
    vEgoRaw : float;
    aEgo : float;
    yawRate : float;
    standstill : bool;
    wheelSpeeds : WheelSpeeds.t;
    gearShifter : GearShifter.t;
    gas : float;
    gasPressed : bool;
    brake : float;
    brakePressed : bool;
    brakeLights : bool;
    steeringAngle : float;
    steeringRate : float;
    steeringTorque : float;
    steeringTorqueEps : float;
    steeringPressed : bool;
    cruiseState : CruiseState.t;
    buttonEvents : list ButtonEvent.t;
    leftBlinker : bool;
    rightBlinker : bool;
    doorOpen : bool;
    seatbeltUnlatched : bool;
    genericToggle : bool;
    events : list CarEvent.t }.

End CarState.

Module CarControl.
Module Actuators.
Record t : Type := mk { gas : float; brake : float; steer : float; steerAngle : float }.
End Actuators.
(** Of the control message, [update] reads [c.actuators] only. *)
Record t : Type := mk { actuators : Actuators.t }.
End CarControl.

End car.

Definition ButtonType := car.CarState.ButtonEvent.Type_.t.
Definition GearShifter := car.CarState.GearShifter.t.

#[export] Instance CarEvent_eq_dec : EqDecision car.CarEvent.t.
Proof. solve_decision. Defined.
#[export] Instance ButtonType_eq_dec : EqDecision car.CarState.ButtonEvent.Type_.t.
Proof. solve_decision. Defined.
#[export] Instance GearShifter_eq_dec : EqDecision car.CarState.GearShifter.t.
Proof. solve_decision. Defined.

(** ** Event types and event construction *)

(** Modelled from the spec: [EventTypes] (imported as [ET]) lives in
    [selfdrive/controls/lib/drive_helpers.py], which is not part of the
    sources.  The severity vocabulary is NO_ENTRY, SOFT_DISABLE,
    IMMEDIATE_DISABLE, USER_DISABLE, ENABLE, WARNING, PERMANENT, PRE_ENABLE. *)
Module ET.
Inductive t : Type :=
  | ENABLE | PRE_ENABLE | NO_ENTRY | WARNING
  | USER_DISABLE | SOFT_DISABLE | IMMEDIATE_DISABLE | PERMANENT.
End ET.

(** Adds one type to an event's severity set. *)
Definition set_event_type (t : ET.t) (e : car.CarEvent.t) : car.CarEvent.t :=
  let '(car.CarEvent.mk n en pe ne wa ud sd id pm) := e in
  match t with
  | ET.ENABLE            => car.CarEvent.mk n true pe ne wa ud sd id pm
  | ET.PRE_ENABLE        => car.CarEvent.mk n en true ne wa ud sd id pm
  | ET.NO_ENTRY          => car.CarEvent.mk n en pe true wa ud sd id pm
  | ET.WARNING           => car.CarEvent.mk n en pe ne true ud sd id pm
  | ET.USER_DISABLE      => car.CarEvent.mk n en pe ne wa true sd id pm
  | ET.SOFT_DISABLE      => car.CarEvent.mk n en pe ne wa ud true id pm
  | ET.IMMEDIATE_DISABLE => car.CarEvent.mk n en pe ne wa ud sd true pm
  | ET.PERMANENT         => car.CarEvent.mk n en pe ne wa ud sd id true
  end.

(** Modelled from the spec: [create_event] lives in drive_helpers.py too.  An
    event is a kind with a severity set; [create_event name types] is the
    event called [name] whose set holds exactly the listed types. *)
Definition create_event (name : string) (types : list ET.t) : car.CarEvent.t :=
  fold_left (fun e t => set_event_type t e) types
    (car.CarEvent.mk name false false false false false false false false).

(** ** Collaborators outside the sources

    [selfdrive.config.Conversions] (imported as [CV]), [selfdrive.car]
    ([STD_CARGO_KG], [scale_rot_inertia], [scale_tire_stiffness],
    [is_ecu_disconnected]) and [VehicleModel.yaw_rate] are imported by
    interface.py and defined elsewhere; the interface is embedded over them. *)

Record Env : Type := mkEnv
  { LB_TO_KG : float;
    KPH_TO_MS : float;
    MPH_TO_MS : float;
    DEG_TO_RAD : float;
    STD_CARGO_KG : float;
    scale_rot_inertia : float -> float -> float;
    (* mass, wheelbase, center_to_front, tire_stiffness_factor *)
    scale_tire_stiffness : float -> float -> float -> float -> float * float;
    (* fingerprint, fingerprint_list, ecu_fingerprint, car, ecu *)
    is_ecu_disconnected :
      gmap Z Z -> gmap string (list (gmap Z Z)) -> gmap Z (list Z) -> string -> Z -> bool;
    (* VehicleModel(CP).yaw_rate(sa, u) *)
    yaw_rate : car.CarParams.t -> float -> float -> float }.

(** ** interface.py: [CarInterface.get_params] *)

Section GetParams.

Variable env : Env.

Import car.CarParams.
Local Open Scope float_scope.

(** [compute_gb(accel, speed)] *)
Definition compute_gb (accel speed : float) : float := accel / 3.0.

(** [get_params(candidate, fingerprint, vin, has_relay)].

    [ret] is filled field by field in the source; here every assignment is a
    binding of the field's name, in source order, and the record is built at
    the [return].  A binding of a numeric field holds what the field then
    holds, [f32] of the value assigned, and that is what later lines read
    ([ret.wheelbase], [ret.mass], [ret.centerToFront]).  Where the source
    reads a field of [ret] that no earlier line has assigned, the binding
    reads it from the fresh message.  The
    locals [stop_and_go] and [tire_stiffness_factor] are assigned on the
    [CAR.OLD_CAR] branch only. *)
Definition get_params (candidate : string) (fingerprint : gmap Z (gmap Z Z))
    (vin : string) (has_relay : bool) : result car.CarParams.t :=
  let ret := new_message in
  let carName := "other"%string in
  let carFingerprint := candidate in
  let carVin := vin in
  let isPandaBlack := has_relay in
  let safetyModel := SafetyModel.toyota in
  (* pedal: line 54 runs before line 108 assigns enableGasInterceptor *)
  let enableCruise := negb (enableGasInterceptor ret) in
  let steerActuatorDelay := f32 0.12 in
  let lateralTuning :=
    if negb (bool_decide (candidate ∈ [CAR.OLD_CAR]))
    then (* init('pid'); kiBP, kpBP = [[0.], [0.]] *)
      pid (LateralPIDTuning.mk (map f32 [0]) [] (map f32 [0]) [] 0)
    else lateralTuning ret in
  let '(stop_and_go, tire_stiffness_factor,
        safetyParam, wheelbase, steerRatio, mass, lateralTuning) :=
    if bool_decide (candidate = CAR.OLD_CAR) then
      let lateralTuning :=
        (* lines 69-70 write into the pid member, which the union still holds *)
        match lateralTuning with
        | pid p =>
            pid (LateralPIDTuning.mk (LateralPIDTuning.kpBP p) (map f32 [0.1])
                   (LateralPIDTuning.kiBP p) (map f32 [0.04]) (f32 0.00004))
        | other => other
        end in
      let lateralTuning :=
        (* init('lqr') replaces the member; lines 73-81 fill it *)
        let _ := lateralTuning in
        lqr {| LateralLQRTuning.scale := f32 1500.0;
               LateralLQRTuning.ki := f32 0.05;
               LateralLQRTuning.a := map f32 [0; 1; -0.22619643; 1.21822268];
               LateralLQRTuning.b := map f32 [-1.92006585e-04; 3.95603032e-05];
               LateralLQRTuning.c := map f32 [1; 0];
               LateralLQRTuning.k := map f32 [-110.73572306; 451.22718255];
               LateralLQRTuning.l := map f32 [0.3233671; 0.3185757];
               LateralLQRTuning.dcGain := f32 0.002237852961363602 |} in
      (Some true, Some 0.444,
       100%Z, f32 2.455, f32 17,
       f32 (6200.0 * LB_TO_KG env + STD_CARGO_KG env), lateralTuning)
    else
      (None, None,
       car.CarParams.safetyParam ret, car.CarParams.wheelbase ret,
       car.CarParams.steerRatio ret, car.CarParams.mass ret, lateralTuning) in
  let steerRateCost := f32 1 in
  let centerToFront := f32 (wheelbase * 0.5) in
  let rotationalInertia := f32 (scale_rot_inertia env mass wheelbase) in
  tire_stiffness_factor ← local "tire_stiffness_factor" tire_stiffness_factor;
  let '(tireStiffnessFront, tireStiffnessRear) :=
    let '(front, rear) :=
      scale_tire_stiffness env mass wheelbase centerToFront tire_stiffness_factor in
    (f32 front, f32 rear) in
  (* no rear steering *)
  let steerRatioRear := f32 0 in
  let steerControlType := SteerControlType.torque in
  (* steer, gas, brake limitations VS speed *)
  let steerMaxBP := map f32 [16 * KPH_TO_MS env; 45 * KPH_TO_MS env] in
  let steerMaxV := map f32 [1; 1] in
  let brakeMaxBP := map f32 [0] in
  let brakeMaxV := map f32 [1] in
  fp0 ← getitem fingerprint 0;
  let enableCamera :=
    is_ecu_disconnected env fp0 FINGERPRINTS ECU_FINGERPRINT candidate ECU.CAM
    || has_relay in
  fp0 ← getitem fingerprint 0;
  let enableDsu :=
    is_ecu_disconnected env fp0 FINGERPRINTS ECU_FINGERPRINT candidate ECU.DSU
    || (has_relay && bool_decide (candidate ∈ TSS2_CAR)) in
  let enableApgs := false in
  fp0 ← getitem fingerprint 0;
  let enableGasInterceptor := bool_decide (is_Some (fp0 !! 0x201%Z)) in
  let openpilotLongitudinalControl := enableCamera && enableDsu in
  (* min speed to enable ACC: negative when the car can do stop and go *)
  stop_and_go ← local "stop_and_go" stop_and_go;
  let minEnableSpeed :=
    f32 (if stop_and_go || enableGasInterceptor then -1 else 19 * MPH_TO_MS env) in
  let steerLimitAlert := false in
  let deadzoneBP := map f32 [0; 9] in
  let deadzoneV := map f32 [0; 0.15] in
  let kpBP := map f32 [0; 5; 35] in
  let kiBP := map f32 [0; 35] in
  let stoppingControl := false in
  let startAccel := f32 0.0 in
  let '(gasMaxBP, gasMaxV, kpV, kiV) :=
    if enableGasInterceptor
    then (map f32 [0; 9; 35], map f32 [0.2; 0.5; 0.7],
          map f32 [1.2; 0.8; 0.5], map f32 [0.18; 0.12])
    else (map f32 [0], map f32 [0.5], map f32 [3.6; 2.4; 1.5], map f32 [0.54; 0.36]) in
  Ok {| carName := carName;
        carFingerprint := carFingerprint;
        carVin := carVin;
        isPandaBlack := isPandaBlack;
        safetyModel := safetyModel;
        safetyParam := safetyParam;
        enableCruise := enableCruise;
        enableGasInterceptor := enableGasInterceptor;
        enableCamera := enableCamera;
        enableDsu := enableDsu;
        enableApgs := enableApgs;
        openpilotLongitudinalControl := openpilotLongitudinalControl;
        minEnableSpeed := minEnableSpeed;
        mass := mass;
        wheelbase := wheelbase;
        centerToFront := centerToFront;
        steerRatio := steerRatio;
        steerRatioRear := steerRatioRear;
        rotationalInertia := rotationalInertia;
        tireStiffnessFront := tireStiffnessFront;
        tireStiffnessRear := tireStiffnessRear;
        steerActuatorDelay := steerActuatorDelay;
        steerRateCost := steerRateCost;
        steerControlType := steerControlType;
        steerLimitAlert := steerLimitAlert;
        steerMaxBP := steerMaxBP;
        steerMaxV := steerMaxV;
        gasMaxBP := gasMaxBP;
        gasMaxV := gasMaxV;
        brakeMaxBP := brakeMaxBP;
        brakeMaxV := brakeMaxV;
        lateralTuning := lateralTuning;
        longitudinalTuning :=
          {| LongitudinalPIDTuning.kpBP := kpBP;
             LongitudinalPIDTuning.kpV := kpV;
             LongitudinalPIDTuning.kiBP := kiBP;
             LongitudinalPIDTuning.kiV := kiV;
             LongitudinalPIDTuning.deadzoneBP := deadzoneBP;
             LongitudinalPIDTuning.deadzoneV := deadzoneV |};
        stoppingControl := stoppingControl;
        startAccel := startAccel |}.

End GetParams.

(** ** The decoded vehicle state read by [update] *)

Module carstate.

(** Modelled from the spec: the [CarState] class (carstate.py) is not part of
    the sources.  It holds one cycle's decoded signals, the spec's
    SignalSnapshot, under the attribute names [update] reads.  Attributes that
    the interface compares with numbers are signal values ([float]);
    attributes it only tests for truth, and the blinker flags, are [bool]. *)

Record CarState : Type := mkCarState
  { v_ego : float;
    v_ego_raw : float;
    a_ego : float;
    angle_steers : float;
    angle_steers_rate : float;
    standstill : bool;
    v_wheel_fl : float;
    v_wheel_fr : float;
    v_wheel_rl : float;
    v_wheel_rr : float;
    gear_shifter : GearShifter;
    car_gas : float;
    pedal_gas : float;
    user_brake : float;
    brake_pressed : float;
    brake_lights : bool;
    steer_torque_driver : float;
    steer_torque_motor : float;
    steer_override : bool;
    steer_error : bool;
    pcm_acc_active : bool;
    pcm_acc_status : float;
    v_cruise_pcm : float;
    main_on : bool;
    low_speed_lockout : bool;
    esp_disabled : bool;
    left_blinker_on : bool;
    prev_left_blinker_on : bool;
    right_blinker_on : bool;
    prev_right_blinker_on : bool;
    door_all_closed : bool;
    seatbelt : bool;
    generic_toggle : bool }.

(** Of a CAN parser (defined outside the sources) [update] reads the validity
    flag and the count of invalid samples. *)
Record CANParser : Type := mkCANParser
  { can_valid : bool;
    can_invalid_cnt : Z }.

(** What one cycle's [can_strings] decode to: the two parsers after
    [update_strings], and the signal values [CarState.update] reads from the
    main parser (the blinker history of [signals] is not read). *)
Record Decoded : Type := mkDecoded
  { dec_cp : CANParser;
    dec_cp_cam : CANParser;
    signals : CarState }.

(** Modelled from the spec: [CarState.update] (carstate.py) is not part of the
    sources.  It takes the new signal values, and keeps each blinker flag's
    value of the previous cycle in [prev_left_blinker_on] and
    [prev_right_blinker_on], the fields that "survive to the next cycle for
    edge detection". *)
Definition CarState_update (CS : CarState) (new : CarState) : CarState :=
  {| v_ego := v_ego new;
     v_ego_raw := v_ego_raw new;
     a_ego := a_ego new;
     angle_steers := angle_steers new;
     angle_steers_rate := angle_steers_rate new;
     standstill := standstill new;
     v_wheel_fl := v_wheel_fl new;
     v_wheel_fr := v_wheel_fr new;
     v_wheel_rl := v_wheel_rl new;
     v_wheel_rr := v_wheel_rr new;
     gear_shifter := gear_shifter new;
     car_gas := car_gas new;
     pedal_gas := pedal_gas new;
     user_brake := user_brake new;
     brake_pressed := brake_pressed new;
     brake_lights := brake_lights new;
     steer_torque_driver := steer_torque_driver new;
     steer_torque_motor := steer_torque_motor new;
     steer_override := steer_override new;
     steer_error := steer_error new;
     pcm_acc_active := pcm_acc_active new;
     pcm_acc_status := pcm_acc_status new;
     v_cruise_pcm := v_cruise_pcm new;
     main_on := main_on new;
     low_speed_lockout := low_speed_lockout new;
     esp_disabled := esp_disabled new;
     left_blinker_on := left_blinker_on new;
     prev_left_blinker_on := left_blinker_on CS;
     right_blinker_on := right_blinker_on new;
     prev_right_blinker_on := right_blinker_on CS;
     door_all_closed := door_all_closed new;
     seatbelt := seatbelt new;
     generic_toggle := generic_toggle new |}.

End carstate.

Import carstate.

(** ** interface.py: the [CarInterface] object *)

Record CarInterface : Type := mkCarInterface
  { CP : car.CarParams.t;
    frame : Z;
    gas_pressed_prev : bool;
    brake_pressed_prev : bool;
    cruise_enabled_prev : bool;
    CS : CarState;
    cp : CANParser;
    cp_cam : CANParser;
    forwarding_camera : bool }.

(** [__init__]: the carried flags start at [False]; [CS0], [cp0] and
    [cp_cam0] are the freshly constructed [CarState(CP)], [get_can_parser(CP)]
    and [get_cam_can_parser(CP)]. *)
Definition CarInterface_init (CP : car.CarParams.t)
    (CS0 : CarState) (cp0 cp_cam0 : CANParser) : CarInterface :=
  {| CP := CP; frame := 0;
     gas_pressed_prev := false;
     brake_pressed_prev := false;
     cruise_enabled_prev := false;
     CS := CS0; cp := cp0; cp_cam := cp_cam0;
     forwarding_camera := false |}.

(** Python's [x != y] on two flags. *)
Definition ne_bool (x y : bool) : bool := negb (Bool.eqb x y).

(** ** interface.py: [CarInterface.update] *)

Section Update.

Variable env : Env.

Import car.CarState.
Local Open Scope float_scope.

(** [update(self, c, can_strings)] returns the [car.CarState] message and
    leaves the object in its new state.  The decoding of [can_strings] by the
    two parsers is the argument [can].  A Float32 field of the message holds
    [f32] of the value assigned, and the event rules that read [ret.vEgo]
    read that single-precision speed; [yaw_rate] is called with the decoded
    [self.CS.v_ego]. *)
Definition update (self : CarInterface) (c : car.CarControl.t) (can : Decoded)
    : car.CarState.t * CarInterface :=
  (* do can recv *)
  let '(CP, CS, cp, cp_cam) :=
    (CP self, CarState_update (CS self) (signals can), dec_cp can, dec_cp_cam can) in
  (* create message *)
  let canValid := can_valid cp in
  (* speeds *)
  let vEgo := f32 (v_ego CS) in
  let vEgoRaw := f32 (v_ego_raw CS) in
  let aEgo := f32 (a_ego CS) in
  let yawRate :=
    f32 (yaw_rate env CP (angle_steers CS * DEG_TO_RAD env) (v_ego CS)) in
  let standstill := carstate.standstill CS in
  let wheelSpeeds :=
    WheelSpeeds.mk (f32 (v_wheel_fl CS)) (f32 (v_wheel_fr CS))
      (f32 (v_wheel_rl CS)) (f32 (v_wheel_rr CS)) in
  (* gear shifter *)
  let gearShifter := gear_shifter CS in
  (* gas pedal *)
  let gas := f32 (car_gas CS) in
  let gasPressed :=
    if car.CarParams.enableGasInterceptor CP
    then (* use interceptor values to disengage on pedal press *)
      15 <? pedal_gas CS
    else 0 <? pedal_gas CS in
  (* brake pedal *)
  let brake := f32 (user_brake CS) in
  let brakePressed := negb (brake_pressed CS =? 0) in
  let brakeLights := brake_lights CS in
  (* steering wheel *)
  let steeringAngle := f32 (angle_steers CS) in
  let steeringRate := f32 (angle_steers_rate CS) in
  let steeringTorque := f32 (steer_torque_driver CS) in
  let steeringTorqueEps := f32 (steer_torque_motor CS) in
  let steeringPressed := steer_override CS in
  (* cruise state *)
  let cruiseState_enabled := pcm_acc_active CS in
  let cruiseState_speed := f32 (v_cruise_pcm CS * KPH_TO_MS env) in
  let cruiseState_available := main_on CS in
  let cruiseState_speedOffset := f32 0 in
  let cruiseState_standstill :=
    if bool_decide (car.CarParams.carFingerprint CP ∈ NO_STOP_TIMER_CAR)
       || car.CarParams.enableGasInterceptor CP
    then (* ignore standstill: the pcm restarts without a special command *)
      false
    else pcm_acc_status CS =? 7 in
  let buttonEvents :=
    when (ne_bool (left_blinker_on CS) (prev_left_blinker_on CS))
      [ ButtonEvent.mk ButtonEvent.Type_.leftBlinker
          (ne_bool (left_blinker_on CS) false) ]
    ++ when (ne_bool (right_blinker_on CS) (prev_right_blinker_on CS))
      [ ButtonEvent.mk ButtonEvent.Type_.rightBlinker
          (ne_bool (right_blinker_on CS) false) ] in
  let leftBlinker := left_blinker_on CS in
  let rightBlinker := right_blinker_on CS in
  let doorOpen := negb (door_all_closed CS) in
  let seatbeltUnlatched := negb (seatbelt CS) in
  let genericToggle := generic_toggle CS in
  (* events *)
  let forwarding_camera :=
    if can_valid cp_cam then true else forwarding_camera self in
  let events :=
    when ((100 <=? can_invalid_cnt cp_cam)%Z && car.CarParams.enableCamera CP)
      [ create_event "invalidGiraffeToyota" [ET.PERMANENT] ]
    ++ when (negb (bool_decide (gearShifter = GearShifter.drive))
             && car.CarParams.enableDsu CP)
      [ create_event "wrongGear" [ET.NO_ENTRY; ET.SOFT_DISABLE] ]
    ++ when doorOpen
      [ create_event "doorOpen" [ET.NO_ENTRY; ET.SOFT_DISABLE] ]
    ++ when seatbeltUnlatched
      [ create_event "seatbeltNotLatched" [ET.NO_ENTRY; ET.SOFT_DISABLE] ]
    ++ when (esp_disabled CS && car.CarParams.enableDsu CP)
      [ create_event "espDisabled" [ET.NO_ENTRY; ET.SOFT_DISABLE] ]
    ++ when (negb (main_on CS) && car.CarParams.enableDsu CP)
      [ create_event "wrongCarMode" [ET.NO_ENTRY; ET.USER_DISABLE] ]
    ++ when (bool_decide (gearShifter = GearShifter.reverse)
             && car.CarParams.enableDsu CP)
      [ create_event "reverseGear" [ET.NO_ENTRY; ET.IMMEDIATE_DISABLE] ]
    ++ when (steer_error CS)
      [ create_event "steerTempUnavailable" [ET.NO_ENTRY; ET.WARNING] ]
    ++ when (low_speed_lockout CS && car.CarParams.enableDsu CP)
      [ create_event "lowSpeedLockout" [ET.NO_ENTRY; ET.PERMANENT] ]
    ++ when ((vEgo <? car.CarParams.minEnableSpeed CP) && car.CarParams.enableDsu CP)
      ([ create_event "speedTooLow" [ET.NO_ENTRY] ]
       ++ when (0.1 <? car.CarControl.Actuators.gas (car.CarControl.actuators c))
         (* some margin on the actuator to not false trigger cancellation while stopping *)
         [ create_event "speedTooLow" [ET.IMMEDIATE_DISABLE] ]
       ++ when (vEgo <? 0.001)
         (* while in standstill, send a user alert *)
         [ create_event "manualRestart" [ET.WARNING] ])
    (* enable request: we activate when the pcm is active (rising edge) *)
    ++ (if cruiseState_enabled && negb (cruise_enabled_prev self)
        then [ create_event "pcmEnable" [ET.ENABLE] ]
        else if negb cruiseState_enabled
        then [ create_event "pcmDisable" [ET.USER_DISABLE] ]
        else [])
    (* disable on pedals rising edge or when brake is pressed and speed isn't zero *)
    ++ when ((gasPressed && negb (gas_pressed_prev self))
             || (brakePressed && (negb (brake_pressed_prev self) || (0.001 <? vEgo))))
      [ create_event "pedalPressed" [ET.NO_ENTRY; ET.USER_DISABLE] ]
    ++ when gasPressed
      [ create_event "pedalPressed" [ET.PRE_ENABLE] ] in
  let ret :=
    {| canValid := canValid;
       vEgo := vEgo;
       vEgoRaw := vEgoRaw;
       aEgo := aEgo;
       yawRate := yawRate;
       car.CarState.standstill := standstill;
       wheelSpeeds := wheelSpeeds;
       gearShifter := gearShifter;
       gas := gas;
       gasPressed := gasPressed;
       brake := brake;
       brakePressed := brakePressed;
       brakeLights := brakeLights;
       steeringAngle := steeringAngle;
       steeringRate := steeringRate;
       steeringTorque := steeringTorque;
       steeringTorqueEps := steeringTorqueEps;
       steeringPressed := steeringPressed;
       cruiseState :=
         {| CruiseState.enabled := cruiseState_enabled;
            CruiseState.speed := cruiseState_speed;
            CruiseState.available := cruiseState_available;
            CruiseState.speedOffset := cruiseState_speedOffset;
            CruiseState.standstill := cruiseState_standstill |};
       buttonEvents := buttonEvents;
       leftBlinker := leftBlinker;
       rightBlinker := rightBlinker;
       doorOpen := doorOpen;
       seatbeltUnlatched := seatbeltUnlatched;
       genericToggle := genericToggle;
       events := events |} in
  (ret,
   {| CP := CP;
      frame := frame self;
      gas_pressed_prev := car.CarState.gasPressed ret;
      brake_pressed_prev := car.CarState.brakePressed ret;
      cruise_enabled_prev := CruiseState.enabled (car.CarState.cruiseState ret);
      CS := CS;
      cp := cp;
      cp_cam := cp_cam;
      forwarding_camera := forwarding_camera |}).

(** The interface driven over consecutive cycles: the messages returned, in
    order, and the object after the last cycle. *)
Fixpoint run (self : CarInterface) (cycles : list (car.CarControl.t * Decoded))
    : list car.CarState.t * CarInterface :=
  match cycles with
  | [] => ([], self)
  | (c, can) :: rest =>
      let '(ret, self') := update self c can in
      let '(rets, final) := run self' rest in
      (ret :: rets, final)
  end.

End Update.

(** ** A concrete environment *)

(** Modelled from the spec: [is_ecu_disconnected] (selfdrive/car/__init__.py)
    is not part of the sources.  The ECU presence detector is "true iff, across
    every fingerprint row recorded as valid for this identity, none contains
    any of that ECU's expected diagnostic-response message ids". *)
Definition spec_is_ecu_disconnected (fingerprint : gmap Z Z)
    (fingerprint_list : gmap string (list (gmap Z Z)))
    (ecu_fingerprint : gmap Z (list Z)) (car : string) (ecu : Z) : bool :=
  forallb
    (fun row : gmap Z Z =>
       forallb (fun msg : Z => negb (bool_decide (is_Some (row !! msg))))
         (default [] (ecu_fingerprint !! ecu)))
    (default [] (fingerprint_list !! car)).

(** The numeric collaborators, for evaluating the interface on concrete
    inputs: the unit conversions, and the scaling of inertia and tire
    stiffness by mass and wheelbase relative to a reference vehicle.  The
    statements below are proved for every environment. *)
Module reference.
Local Open Scope float_scope.
Definition STD_CARGO_KG : float := 136.
Definition MASS : float := 1326 + STD_CARGO_KG.
Definition WHEELBASE : float := 2.70.
Definition CENTER_TO_FRONT : float := WHEELBASE * 0.4.
Definition CENTER_TO_REAR : float := WHEELBASE - CENTER_TO_FRONT.
Definition ROTATIONAL_INERTIA : float := 2500.
Definition TIRE_STIFFNESS_FRONT : float := 192150.
Definition TIRE_STIFFNESS_REAR : float := 202500.

Definition scale_rot_inertia (mass wheelbase : float) : float :=
  ROTATIONAL_INERTIA * mass * (wheelbase * wheelbase) / (MASS * (WHEELBASE * WHEELBASE)).

Definition scale_tire_stiffness
    (mass wheelbase center_to_front tire_stiffness_factor : float) : float * float :=
  let center_to_rear := wheelbase - center_to_front in
  ((TIRE_STIFFNESS_FRONT * tire_stiffness_factor) * mass / MASS
     * (center_to_rear / wheelbase) / (CENTER_TO_REAR / WHEELBASE),
   (TIRE_STIFFNESS_REAR * tire_stiffness_factor) * mass / MASS
     * (center_to_front / wheelbase) / (CENTER_TO_FRONT / WHEELBASE)).

(** Steady-state yaw rate of the single-track model built from [CP]. *)
Definition yaw_rate (CP : car.CarParams.t) (sa u : float) : float :=
  let m := car.CarParams.mass CP in
  let l := car.CarParams.wheelbase CP in
  let aF := car.CarParams.centerToFront CP in
  let aR := l - aF in
  let cF := car.CarParams.tireStiffnessFront CP in
  let cR := car.CarParams.tireStiffnessRear CP in
  let sf := m * (cF * aF - cR * aR) / (l * l * cF * cR) in
  (1 - car.CarParams.steerRatioRear CP) / (1 - sf * (u * u)) / l
    * sa / car.CarParams.steerRatio CP * u.

Definition env : Env :=
  mkEnv 0.453592                    (* LB_TO_KG *)
        (1 / 3.6)                   (* KPH_TO_MS *)
        (1.609344 * (1 / 3.6))      (* MPH_TO_MS *)
        (3.141592653589793 / 180)   (* DEG_TO_RAD *)
        STD_CARGO_KG scale_rot_inertia scale_tire_stiffness
        spec_is_ecu_disconnected yaw_rate.
End reference.

(** ** Concrete inputs *)

Module sample.
Local Open Scope float_scope.

(** Fingerprints: what the registered car shows on bus 0; four empty buses;
    a bus 0 that carries only the interceptor message. *)
Definition observed_fingerprint : gmap Z (gmap Z Z) := {[ 0%Z := OLD_CAR_row 8 ]}.
Definition empty_fingerprint : gmap Z (gmap Z Z) :=
  list_to_map [(0%Z, ∅); (1%Z, ∅); (2%Z, ∅); (3%Z, ∅)].
Definition interceptor_fingerprint : gmap Z (gmap Z Z) :=
  {[ 0%Z := {[ 0x201%Z := 6%Z ]} ]}.

(** Parameters of a car with the given ECU flags and enabling speed, as a
    message holds them. *)
Definition params (camera dsu interceptor : bool) (min_speed : float)
    : car.CarParams.t :=
  {| car.CarParams.carName := "other";
     car.CarParams.carFingerprint := CAR.OLD_CAR;
     car.CarParams.carVin := "";
     car.CarParams.isPandaBlack := false;
     car.CarParams.safetyModel := car.CarParams.SafetyModel.toyota;
     car.CarParams.safetyParam := 100;
     car.CarParams.enableCruise := true;
     car.CarParams.enableGasInterceptor := interceptor;
     car.CarParams.enableCamera := camera;
     car.CarParams.enableDsu := dsu;
     car.CarParams.enableApgs := false;
     car.CarParams.openpilotLongitudinalControl := camera && dsu;
     car.CarParams.minEnableSpeed := f32 min_speed;
     car.CarParams.mass := f32 2948.2704;
     car.CarParams.wheelbase := f32 2.455;
     car.CarParams.centerToFront := f32 1.2275;
     car.CarParams.steerRatio := 17;
     car.CarParams.steerRatioRear := 0;
     car.CarParams.rotationalInertia := 4168;
     car.CarParams.tireStiffnessFront := 143371;
     car.CarParams.tireStiffnessRear := 226640;
     car.CarParams.steerActuatorDelay := f32 0.12;
     car.CarParams.steerRateCost := 1;
     car.CarParams.steerControlType := car.CarParams.SteerControlType.torque;
     car.CarParams.steerLimitAlert := false;
     car.CarParams.steerMaxBP := [];
     car.CarParams.steerMaxV := [];
     car.CarParams.gasMaxBP := [0];
     car.CarParams.gasMaxV := [0.5];
     car.CarParams.brakeMaxBP := [0];
     car.CarParams.brakeMaxV := [1];
     car.CarParams.lateralTuning :=
       car.CarParams.lqr car.CarParams.LateralLQRTuning.new_message;
     car.CarParams.longitudinalTuning :=
       car.CarParams.LongitudinalPIDTuning.new_message;
     car.CarParams.stoppingControl := false;
     car.CarParams.startAccel := 0 |}.

(** Signals of a car in drive, doors closed and belt latched, at speed [v],
    with the given pedal values, cruise state and blinkers. *)
Definition drive (v pedal brake : float) (cruise left right : bool) : CarState :=
  {| v_ego := v; v_ego_raw := v; a_ego := 0;
     angle_steers := 0; angle_steers_rate := 0;
     standstill := false;
     v_wheel_fl := v; v_wheel_fr := v; v_wheel_rl := v; v_wheel_rr := v;
     gear_shifter := car.CarState.GearShifter.drive;
     car_gas := 0; pedal_gas := pedal; user_brake := 0; brake_pressed := brake;
     brake_lights := false;
     steer_torque_driver := 0; steer_torque_motor := 0;
     steer_override := false; steer_error := false;
     pcm_acc_active := cruise; pcm_acc_status := 0; v_cruise_pcm := 0;
     main_on := true; low_speed_lockout := false; esp_disabled := false;
     left_blinker_on := left; prev_left_blinker_on := false;
     right_blinker_on := right; prev_right_blinker_on := false;
     door_all_closed := true; seatbelt := true; generic_toggle := false |}.

(** One cycle's decoding, with [cnt] invalid samples counted on the camera
    parser. *)
Definition decoded (cnt : Z) (s : CarState) : Decoded :=
  {| dec_cp := mkCANParser true 0;
     dec_cp_cam := mkCANParser (cnt =? 0)%Z cnt;
     signals := s |}.

(** A freshly constructed interface for the given parameters. *)
Definition interface (CP : car.CarParams.t) : CarInterface :=
  CarInterface_init CP (drive 0 0 0 false false false)
    (mkCANParser false 0) (mkCANParser false 0).

(** A control message that commands the gas [g]. *)
Definition control (g : float) : car.CarControl.t :=
  car.CarControl.mk (car.CarControl.Actuators.mk (f32 g) 0 0 0).

End sample.

(** ** Parts of the event list *)

(** Number of occurrences of an event in an event list. *)
Definition occurrences (e : car.CarEvent.t) (l : list car.CarEvent.t) : nat :=
  count_occ CarEvent_eq_dec l e.

(** Rule 10, the block guarded by [vEgo < minEnableSpeed and enableDsu], on
    the speed the message holds. *)
Definition speed_too_low_block (self : CarInterface) (c : car.CarControl.t)
    (can : Decoded) : list car.CarEvent.t :=
  when ((f32 (v_ego (signals can)) <? car.CarParams.minEnableSpeed (CP self))%float
        && car.CarParams.enableDsu (CP self))
    ([ create_event "speedTooLow" [ET.NO_ENTRY] ]
     ++ when (0.1 <? car.CarControl.Actuators.gas (car.CarControl.actuators c))%float
          [ create_event "speedTooLow" [ET.IMMEDIATE_DISABLE] ]
     ++ when (f32 (v_ego (signals can)) <? 0.001)%float
          [ create_event "manualRestart" [ET.WARNING] ]).

(** Rule 11, the [if]/[elif] on the cruise state. *)
Definition pcm_block (self : CarInterface) (can : Decoded) : list car.CarEvent.t :=
  if pcm_acc_active (signals can) && negb (cruise_enabled_prev self)
  then [ create_event "pcmEnable" [ET.ENABLE] ]
  else if negb (pcm_acc_active (signals can))
  then [ create_event "pcmDisable" [ET.USER_DISABLE] ]
  else [].

(** * Further definitions *)

(** ** The rule order of [update] *)

(** Every event [update] can append, in the order of its [if] statements
    (lines 230-269). *)
Definition rule_order : list car.CarEvent.t :=
  [ create_event "invalidGiraffeToyota" [ET.PERMANENT];
    create_event "wrongGear" [ET.NO_ENTRY; ET.SOFT_DISABLE];
    create_event "doorOpen" [ET.NO_ENTRY; ET.SOFT_DISABLE];
    create_event "seatbeltNotLatched" [ET.NO_ENTRY; ET.SOFT_DISABLE];
    create_event "espDisabled" [ET.NO_ENTRY; ET.SOFT_DISABLE];
    create_event "wrongCarMode" [ET.NO_ENTRY; ET.USER_DISABLE];
    create_event "reverseGear" [ET.NO_ENTRY; ET.IMMEDIATE_DISABLE];
    create_event "steerTempUnavailable" [ET.NO_ENTRY; ET.WARNING];
    create_event "lowSpeedLockout" [ET.NO_ENTRY; ET.PERMANENT];
    create_event "speedTooLow" [ET.NO_ENTRY];
    create_event "speedTooLow" [ET.IMMEDIATE_DISABLE];
    create_event "manualRestart" [ET.WARNING];
    create_event "pcmEnable" [ET.ENABLE];
    create_event "pcmDisable" [ET.USER_DISABLE];
    create_event "pedalPressed" [ET.NO_ENTRY; ET.USER_DISABLE];
    create_event "pedalPressed" [ET.PRE_ENABLE] ].

(** The button events [update] can append, in order, for the new blinker
    flags [left] and [right] (lines 204-214). *)
Definition button_order (left right : bool) : list car.CarState.ButtonEvent.t :=
  [ car.CarState.ButtonEvent.mk car.CarState.ButtonEvent.Type_.leftBlinker left;
    car.CarState.ButtonEvent.mk car.CarState.ButtonEvent.Type_.rightBlinker right ].

(** All events of a run, cycle after cycle. *)
Definition all_events (rets : list car.CarState.t) : list car.CarEvent.t :=
  concat (map car.CarState.events rets).

(** Number of button events of type [t] in a list. *)
Definition count_buttons (t : ButtonType) (l : list car.CarState.ButtonEvent.t) : nat :=
  length (List.filter
            (fun be => bool_decide (car.CarState.ButtonEvent.type be = t)) l).

(** All button events of a run, cycle after cycle. *)
Definition all_buttonEvents (rets : list car.CarState.t)
    : list car.CarState.ButtonEvent.t :=
  concat (map car.CarState.buttonEvents rets).

(** ** Parameter records that differ in the VIN or in the relay fields *)

(** [r] with [carVin] replaced. *)
Definition with_carVin (vin : string) (r : car.CarParams.t) : car.CarParams.t :=
  let 'car.CarParams.mk carName carFingerprint _ isPandaBlack safetyModel safetyParam
        enableCruise enableGasInterceptor enableCamera enableDsu enableApgs
        openpilotLongitudinalControl minEnableSpeed mass wheelbase centerToFront
        steerRatio steerRatioRear rotationalInertia tireStiffnessFront
        tireStiffnessRear steerActuatorDelay steerRateCost steerControlType
        steerLimitAlert steerMaxBP steerMaxV gasMaxBP gasMaxV brakeMaxBP brakeMaxV
        lateralTuning longitudinalTuning stoppingControl startAccel := r in
  car.CarParams.mk carName carFingerprint vin isPandaBlack safetyModel safetyParam
    enableCruise enableGasInterceptor enableCamera enableDsu enableApgs
    openpilotLongitudinalControl minEnableSpeed mass wheelbase centerToFront
    steerRatio steerRatioRear rotationalInertia tireStiffnessFront
    tireStiffnessRear steerActuatorDelay steerRateCost steerControlType
    steerLimitAlert steerMaxBP steerMaxV gasMaxBP gasMaxV brakeMaxBP brakeMaxV
    lateralTuning longitudinalTuning stoppingControl startAccel.

(** [r] with the three fields the relay flag reaches: [isPandaBlack] and
    [enableCamera] set, and the longitudinal control flag recomputed. *)
Definition with_relay (r : car.CarParams.t) : car.CarParams.t :=
  let 'car.CarParams.mk carName carFingerprint carVin _ safetyModel safetyParam
        enableCruise enableGasInterceptor _ enableDsu enableApgs
        _ minEnableSpeed mass wheelbase centerToFront
        steerRatio steerRatioRear rotationalInertia tireStiffnessFront
        tireStiffnessRear steerActuatorDelay steerRateCost steerControlType
        steerLimitAlert steerMaxBP steerMaxV gasMaxBP gasMaxV brakeMaxBP brakeMaxV
        lateralTuning longitudinalTuning stoppingControl startAccel := r in
  car.CarParams.mk carName carFingerprint carVin true safetyModel safetyParam
    enableCruise enableGasInterceptor true enableDsu enableApgs
    enableDsu minEnableSpeed mass wheelbase centerToFront
    steerRatio steerRatioRear rotationalInertia tireStiffnessFront
    tireStiffnessRear steerActuatorDelay steerRateCost steerControlType
    steerLimitAlert steerMaxBP steerMaxV gasMaxBP gasMaxV brakeMaxBP brakeMaxV
    lateralTuning longitudinalTuning stoppingControl startAccel.

(** The parameters [get_params] derives for the registered car from the
    fingerprint that shows the interceptor alone. *)
Definition derived_params : car.CarParams.t :=
  match get_params reference.env CAR.OLD_CAR sample.interceptor_fingerprint "" false with
  | inr ret => ret
  | inl _ => car.CarParams.new_message
  end.

(** ** values.py: the static messages *)

(** One row of [STATIC_MSGS]: addr, (ecu, cars, bus, 1/freq*100, vl).  The
    [cars] entry is written [(CAR.OLD_CAR)], which is the string itself. *)
Module StaticMsg.
Record t : Type := mk
  { addr : Z;
    ecu : Z;
    cars : string;
    bus : Z;
    period : Z;
    vl : list Z }.
End StaticMsg.

Definition STATIC_MSGS : list StaticMsg.t :=
  [ StaticMsg.mk 0x130 ECU.CAM CAR.OLD_CAR 1 100 [0x00; 0x00; 0x00; 0x00; 0x00; 0x00; 0x38];
    StaticMsg.mk 0x240 ECU.CAM CAR.OLD_CAR 1 5 [0x00; 0x10; 0x01; 0x00; 0x10; 0x01; 0x00];
    StaticMsg.mk 0x241 ECU.CAM CAR.OLD_CAR 1 5 [0x00; 0x10; 0x01; 0x00; 0x10; 0x01; 0x00];
    StaticMsg.mk 0x244 ECU.CAM CAR.OLD_CAR 1 5 [0x00; 0x10; 0x01; 0x00; 0x10; 0x01; 0x00];
    StaticMsg.mk 0x245 ECU.CAM CAR.OLD_CAR 1 5 [0x00; 0x10; 0x01; 0x00; 0x10; 0x01; 0x00];
    StaticMsg.mk 0x248 ECU.CAM CAR.OLD_CAR 1 5 [0x00; 0x00; 0x00; 0x00; 0x00; 0x00; 0x01];
    StaticMsg.mk 0x367 ECU.CAM CAR.OLD_CAR 0 40 [0x06; 0x00];
    StaticMsg.mk 0x414 ECU.CAM CAR.OLD_CAR 0 100
      [0x00; 0x00; 0x00; 0x00; 0x00; 0x00; 0x17; 0x00];
    StaticMsg.mk 0x466 ECU.CAM CAR.OLD_CAR 1 100 [0x24; 0x20; 0xB1];
    StaticMsg.mk 0x489 ECU.CAM CAR.OLD_CAR 0 100 [0x00; 0x00; 0x00; 0x00; 0x00; 0x00; 0x00];
    StaticMsg.mk 0x48a ECU.CAM CAR.OLD_CAR 0 100 [0x00; 0x00; 0x00; 0x00; 0x00; 0x00; 0x00];
    StaticMsg.mk 0x48b ECU.CAM CAR.OLD_CAR 0 100
      [0x66; 0x06; 0x08; 0x0a; 0x02; 0x00; 0x00; 0x00];
    StaticMsg.mk 0x4d3 ECU.CAM CAR.OLD_CAR 0 100
      [0x1C; 0x00; 0x00; 0x01; 0x00; 0x00; 0x00; 0x00];

    StaticMsg.mk 0x128 ECU.DSU CAR.OLD_CAR 1 3 [0xf4; 0x01; 0x90; 0x83; 0x00; 0x37];
    StaticMsg.mk 0x141 ECU.DSU CAR.OLD_CAR 1 2 [0x00; 0x00; 0x00; 0x46];
    StaticMsg.mk 0x160 ECU.DSU CAR.OLD_CAR 1 7
      [0x00; 0x00; 0x08; 0x12; 0x01; 0x31; 0x9c; 0x51];
    StaticMsg.mk 0x161 ECU.DSU CAR.OLD_CAR 1 7 [0x00; 0x1e; 0x00; 0x00; 0x00; 0x80; 0x07];
    StaticMsg.mk 0x283 ECU.DSU CAR.OLD_CAR 0 3 [0x00; 0x00; 0x00; 0x00; 0x00; 0x00; 0x8c];
    StaticMsg.mk 0x344 ECU.DSU CAR.OLD_CAR 0 5
      [0x00; 0x00; 0x01; 0x00; 0x00; 0x00; 0x00; 0x50];
    StaticMsg.mk 0x365 ECU.DSU CAR.OLD_CAR 0 20 [0x00; 0x00; 0x00; 0x80; 0xfc; 0x00; 0x08];
    StaticMsg.mk 0x366 ECU.DSU CAR.OLD_CAR 0 20 [0x00; 0x72; 0x07; 0xff; 0x09; 0xfe; 0x00];
    StaticMsg.mk 0x4CB ECU.DSU CAR.OLD_CAR 0 100
      [0x0c; 0x00; 0x00; 0x00; 0x00; 0x00; 0x00; 0x00] ]%Z.

(** The message ids the ECU detection looks for, over all ECUs. *)
Definition detection_ids : list Z :=
  concat (map snd (map_to_list ECU_FINGERPRINT)).

(** ** More concrete inputs *)

(** Signals of a car reversing slowly, doors closed and belt latched. *)
Definition reversing_signals : CarState :=
  {| v_ego := 1; v_ego_raw := 1; a_ego := 0;
     angle_steers := 0; angle_steers_rate := 0;
     standstill := false;
     v_wheel_fl := 1; v_wheel_fr := 1; v_wheel_rl := 1; v_wheel_rr := 1;
     gear_shifter := car.CarState.GearShifter.reverse;
     car_gas := 0; pedal_gas := 0; user_brake := 0; brake_pressed := 0;
     brake_lights := false;
     steer_torque_driver := 0; steer_torque_motor := 0;
     steer_override := false; steer_error := false;
     pcm_acc_active := false; pcm_acc_status := 0; v_cruise_pcm := 0;
     main_on := true; low_speed_lockout := false; esp_disabled := false;
     left_blinker_on := false; prev_left_blinker_on := false;
     right_blinker_on := false; prev_right_blinker_on := false;
     door_all_closed := true; seatbelt := true; generic_toggle := false |}.

(** The camera flag of the parameters is the simulation flag: [get_params]
    sets [CP.enableCamera] when the camera ECU does not answer on the bus or a
    relay is present (interface.py:105) and logs it as "ECU Camera Simulated"
    (interface.py:110).  The camera is expected to be real, a genuine ECU on
    the bus, when the flag is clear. *)
Definition camera_expected_real (CP : car.CarParams.t) : bool :=
  negb (car.CarParams.enableCamera CP).

(** * Properties *)

(** ** Lists built by guarded appends *)

Lemma elem_of_when {A} (b : bool) (l : list A) (x : A) :
  x ∈ when b l ↔ b = true ∧ x ∈ l.
Proof.
  destruct b; simpl.
  - split; [intros H; split; [reflexivity | exact H] | intros [_ H]; exact H].
  - split; [intros H; apply elem_of_nil in H; destruct H | intros [H _]; discriminate H].
Qed.

Lemma elem_of_when_singleton {A} (b : bool) (x y : A) :
  x ∈ when b [y] ↔ b = true ∧ x = y.
Proof. rewrite elem_of_when, list_elem_of_singleton. reflexivity. Qed.

Lemma elem_of_when_singleton_app {A} (b : bool) (x y : A) (l : list A) :
  x ∈ when b [y] ++ l ↔ (b = true ∧ x = y) ∨ x ∈ l.
Proof. rewrite elem_of_app, elem_of_when_singleton. reflexivity. Qed.

Lemma occurrences_app e l1 l2 :
  occurrences e (l1 ++ l2) = occurrences e l1 + occurrences e l2.
Proof. apply count_occ_app. Qed.

Lemma occurrences_when_other e b e' :
  e ≠ e' → occurrences e (when b [e']) = 0.
Proof.
  intros Hne. destruct b; simpl; [|reflexivity].
  unfold occurrences. simpl. destruct (CarEvent_eq_dec e' e); congruence.
Qed.

Lemma occurrences_when_same e b :
  occurrences e (when b [e]) = if b then 1 else 0.
Proof.
  destruct b; simpl; [|reflexivity].
  unfold occurrences. simpl. destruct (CarEvent_eq_dec e e); congruence.
Qed.

Lemma occurrences_elem_of e l : 0 < occurrences e l ↔ e ∈ l.
Proof.
  unfold occurrences. rewrite list_elem_of_In, (count_occ_In CarEvent_eq_dec).
  unfold gt. reflexivity.
Qed.

Lemma occurrences_not_elem e l : e ∉ l → occurrences e l = 0.
Proof.
  unfold occurrences. rewrite list_elem_of_In. apply count_occ_not_In.
Qed.

(** Two events built by [create_event] from different names or types differ. *)
Ltac event_neq := let H := fresh in intro H; vm_compute in H; discriminate H.

(** ** The event list of one cycle, rule by rule *)

Section Events.

Variable env : Env.
Variables (self : CarInterface) (c : car.CarControl.t) (can : Decoded).

Local Open Scope float_scope.

Local Abbreviation ret := (fst (update env self c can)).
Local Abbreviation events := (car.CarState.events ret).

(** The values of the cycle are those decoded from it, the speed as
    stored. *)
Lemma update_vEgo : car.CarState.vEgo ret = f32 (v_ego (signals can)).
Proof. reflexivity. Qed.

Lemma update_gasPressed :
  car.CarState.gasPressed ret =
  if car.CarParams.enableGasInterceptor (CP self)
  then 15 <? pedal_gas (signals can) else 0 <? pedal_gas (signals can).
Proof. reflexivity. Qed.

Lemma update_brakePressed :
  car.CarState.brakePressed ret = negb (brake_pressed (signals can) =? 0).
Proof. reflexivity. Qed.

Lemma update_cruise_enabled :
  car.CarState.CruiseState.enabled (car.CarState.cruiseState ret)
  = pcm_acc_active (signals can).
Proof. reflexivity. Qed.

(** The flags carried to the next cycle are this cycle's values. *)
Lemma update_carries :
  let self' := snd (update env self c can) in
  gas_pressed_prev self' = car.CarState.gasPressed ret
  ∧ brake_pressed_prev self' = car.CarState.brakePressed ret
  ∧ cruise_enabled_prev self'
    = car.CarState.CruiseState.enabled (car.CarState.cruiseState ret)
  ∧ left_blinker_on (CS self') = left_blinker_on (signals can)
  ∧ right_blinker_on (CS self') = right_blinker_on (signals can)
  ∧ CP self' = CP self.
Proof. repeat split. Qed.

(** Membership in the cycle's event list, for an event that only one of the
    guarded appends can produce. *)
Lemma elem_of_events (e : car.CarEvent.t) :
  e ∈ events ↔
    ((100 <=? can_invalid_cnt (dec_cp_cam can))%Z && car.CarParams.enableCamera (CP self) = true
       ∧ e = create_event "invalidGiraffeToyota" [ET.PERMANENT])
    ∨ (negb (bool_decide (gear_shifter (signals can) = car.CarState.GearShifter.drive))
         && car.CarParams.enableDsu (CP self) = true
       ∧ e = create_event "wrongGear" [ET.NO_ENTRY; ET.SOFT_DISABLE])
    ∨ (negb (door_all_closed (signals can)) = true
       ∧ e = create_event "doorOpen" [ET.NO_ENTRY; ET.SOFT_DISABLE])
    ∨ (negb (seatbelt (signals can)) = true
       ∧ e = create_event "seatbeltNotLatched" [ET.NO_ENTRY; ET.SOFT_DISABLE])
    ∨ (esp_disabled (signals can) && car.CarParams.enableDsu (CP self) = true
       ∧ e = create_event "espDisabled" [ET.NO_ENTRY; ET.SOFT_DISABLE])
    ∨ (negb (main_on (signals can)) && car.CarParams.enableDsu (CP self) = true
       ∧ e = create_event "wrongCarMode" [ET.NO_ENTRY; ET.USER_DISABLE])
    ∨ (bool_decide (gear_shifter (signals can) = car.CarState.GearShifter.reverse)
         && car.CarParams.enableDsu (CP self) = true
       ∧ e = create_event "reverseGear" [ET.NO_ENTRY; ET.IMMEDIATE_DISABLE])
    ∨ (steer_error (signals can) = true
       ∧ e = create_event "steerTempUnavailable" [ET.NO_ENTRY; ET.WARNING])
    ∨ (low_speed_lockout (signals can) && car.CarParams.enableDsu (CP self) = true
       ∧ e = create_event "lowSpeedLockout" [ET.NO_ENTRY; ET.PERMANENT])
    ∨ e ∈ speed_too_low_block self c can
    ∨ e ∈ pcm_block self can
    ∨ ((car.CarState.gasPressed ret && negb (gas_pressed_prev self))
         || (car.CarState.brakePressed ret
             && (negb (brake_pressed_prev self) || (0.001 <? car.CarState.vEgo ret))) = true
       ∧ e = create_event "pedalPressed" [ET.NO_ENTRY; ET.USER_DISABLE])
    ∨ (car.CarState.gasPressed ret = true
       ∧ e = create_event "pedalPressed" [ET.PRE_ENABLE]).
Proof.
  unfold update. cbn [fst car.CarState.events].
  do 9 (eapply iff_trans; [apply elem_of_when_singleton_app | apply or_iff_compat_l]).
  do 2 (eapply iff_trans; [apply elem_of_app | apply or_iff_compat_l]).
  eapply iff_trans; [apply elem_of_when_singleton_app | apply or_iff_compat_l].
  apply elem_of_when_singleton.
Qed.

End Events.

(** ** Rule 10: speed too low *)

Lemma elem_of_speed_too_low_block self c can e :
  e ∈ speed_too_low_block self c can ↔
    ((f32 (v_ego (signals can)) <? car.CarParams.minEnableSpeed (CP self))%float
       && car.CarParams.enableDsu (CP self) = true)
    ∧ (e = create_event "speedTooLow" [ET.NO_ENTRY]
       ∨ ((0.1 <? car.CarControl.Actuators.gas (car.CarControl.actuators c))%float = true
          ∧ e = create_event "speedTooLow" [ET.IMMEDIATE_DISABLE])
       ∨ ((f32 (v_ego (signals can)) <? 0.001)%float = true
          ∧ e = create_event "manualRestart" [ET.WARNING])).
Proof.
  unfold speed_too_low_block.
  rewrite elem_of_when, !elem_of_app, list_elem_of_singleton, !elem_of_when_singleton.
  reflexivity.
Qed.

Lemma elem_of_pcm_block self can e :
  e ∈ pcm_block self can ↔
    (pcm_acc_active (signals can) = true ∧ cruise_enabled_prev self = false
       ∧ e = create_event "pcmEnable" [ET.ENABLE])
    ∨ (pcm_acc_active (signals can) = false
       ∧ e = create_event "pcmDisable" [ET.USER_DISABLE]).
Proof.
  unfold pcm_block.
  destruct (pcm_acc_active (signals can)), (cruise_enabled_prev self); simpl;
    rewrite ?list_elem_of_singleton, ?elem_of_nil; intuition congruence.
Qed.

(** Splits membership of a named event into the thirteen rules and discards
    the rules that build a different event. *)
Ltac by_rule :=
  rewrite !elem_of_events, !elem_of_speed_too_low_block, !elem_of_pcm_block;
  cbv [create_event fold_left set_event_type].

(** Case analysis on a membership fact split by [by_rule]: one case per rule
    that builds the event in question. *)
Ltac rule_cases :=
  repeat match goal with
  | H : _ ∨ _ |- _ => destruct H as [H|H]
  | H : _ ∧ _ |- _ => destruct H
  | H : @eq car.CarEvent.t _ _ |- _ => first [discriminate H | clear H]
  end.

(** C3. In a cycle with [vEgo < minEnableSpeed] and the DSU flag set, the
    event speedTooLow [NO_ENTRY] is emitted; speedTooLow [IMMEDIATE_DISABLE]
    is emitted iff the commanded gas exceeds 0.1, and manualRestart [WARNING]
    iff [vEgo < 0.001].  In every cycle, speedTooLow [IMMEDIATE_DISABLE] is
    in the event list only together with speedTooLow [NO_ENTRY]. *)
Theorem speed_too_low_events (env : Env) (self : CarInterface)
    (c : car.CarControl.t) (can : Decoded) :
  let ret := fst (update env self c can) in
  let events := car.CarState.events ret in
  ((car.CarState.vEgo ret <? car.CarParams.minEnableSpeed (CP self))%float = true →
   car.CarParams.enableDsu (CP self) = true →
     create_event "speedTooLow" [ET.NO_ENTRY] ∈ events
     ∧ (create_event "speedTooLow" [ET.IMMEDIATE_DISABLE] ∈ events
        ↔ (0.1 <? car.CarControl.Actuators.gas (car.CarControl.actuators c))%float = true)
     ∧ (create_event "manualRestart" [ET.WARNING] ∈ events
        ↔ (car.CarState.vEgo ret <? 0.001)%float = true))
  ∧ (create_event "speedTooLow" [ET.IMMEDIATE_DISABLE] ∈ events →
     create_event "speedTooLow" [ET.NO_ENTRY] ∈ events).
Proof.
  intros ret events. subst events.
  change (car.CarState.vEgo ret) with (f32 (v_ego (signals can))). subst ret.
  split.
  - intros Hlow Hdsu. repeat split; by_rule; rewrite ?Hlow, ?Hdsu; simpl.
    + do 9 right. left. split; [reflexivity | left; reflexivity].
    + intros H. rule_cases. assumption.
    + intros Hgas. do 9 right. left. split; [reflexivity | right; left; tauto].
    + intros H. rule_cases. assumption.
    + intros Hzero. do 9 right. left. split; [reflexivity | right; right; tauto].
  - by_rule. intros H. do 9 right. left. rule_cases.
    split; [assumption | left; reflexivity].
Qed.

Lemma speed_too_low_events_witness :
  (car.CarState.vEgo
     (fst (update reference.env (sample.interface (sample.params true true false 8.5))
             (sample.control 0.2)
             (sample.decoded 0 (sample.drive 0 0 0 true false false))))
   <? car.CarParams.minEnableSpeed
        (CP (sample.interface (sample.params true true false 8.5))))%float = true
  ∧ car.CarParams.enableDsu
      (CP (sample.interface (sample.params true true false 8.5))) = true
  ∧ create_event "speedTooLow" [ET.NO_ENTRY]
    ∈ car.CarState.events
        (fst (update reference.env (sample.interface (sample.params true true false 8.5))
                (sample.control 0.2)
                (sample.decoded 0 (sample.drive 0 0 0 true false false))))
  ∧ create_event "speedTooLow" [ET.IMMEDIATE_DISABLE]
    ∈ car.CarState.events
        (fst (update reference.env (sample.interface (sample.params true true false 8.5))
                (sample.control 0.2)
                (sample.decoded 0 (sample.drive 0 0 0 true false false))))
  ∧ create_event "manualRestart" [ET.WARNING]
    ∈ car.CarState.events
        (fst (update reference.env (sample.interface (sample.params true true false 8.5))
                (sample.control 0.2)
                (sample.decoded 0 (sample.drive 0 0 0 true false false)))).
Proof.
  split; [reflexivity|]. split; [reflexivity|].
  destruct (proj1 (speed_too_low_events reference.env
                     (sample.interface (sample.params true true false 8.5))
                     (sample.control 0.2)
                     (sample.decoded 0 (sample.drive 0 0 0 true false false))))
    as (Hbase & Hdisable & Hrestart); [reflexivity | reflexivity |].
  split; [exact Hbase|]. split.
  - apply Hdisable. reflexivity.
  - apply Hrestart. reflexivity.
Defined.

(** ** Rule 1: camera link lost *)

(** Counterexample to C4: with the camera expected to be real
    ([CP.enableCamera] clear) and the camera parser's invalid counter at 100,
    the cycle does not emit invalidGiraffeToyota [PERMANENT]. *)
Lemma real_camera_link_lost_is_silent :
  ¬ (camera_expected_real
       (CP (sample.interface (sample.params false true false (-1)))) = true →
     can_invalid_cnt
       (dec_cp_cam (sample.decoded 100 (sample.drive 10 0 0 true false false)))
     = 100%Z →
     create_event "invalidGiraffeToyota" [ET.PERMANENT]
     ∈ car.CarState.events
         (fst (update reference.env
                 (sample.interface (sample.params false true false (-1)))
                 (sample.control 0)
                 (sample.decoded 100 (sample.drive 10 0 0 true false false))))).
Proof.
  intros Hclaim. specialize (Hclaim eq_refl eq_refl).
  revert Hclaim. by_rule. intros Hin. rule_cases; discriminate.
Qed.

(** C4, amended. invalidGiraffeToyota [PERMANENT] is emitted in a cycle iff
    the camera parser's invalid counter is at least 100 and the camera ECU is
    simulated ([CP.enableCamera] set), not when the camera is expected to be
    real: with the flag set it fires at a count of exactly 100, and at 99 it
    does not. *)
Theorem camera_link_lost_event (env : Env) (self : CarInterface)
    (c : car.CarControl.t) (can : Decoded) :
  let events := car.CarState.events (fst (update env self c can)) in
  let e := create_event "invalidGiraffeToyota" [ET.PERMANENT] in
  (e ∈ events ↔
     (100 ≤ can_invalid_cnt (dec_cp_cam can))%Z
     ∧ car.CarParams.enableCamera (CP self) = true)
  ∧ (car.CarParams.enableCamera (CP self) = true →
     can_invalid_cnt (dec_cp_cam can) = 100%Z → e ∈ events)
  ∧ (can_invalid_cnt (dec_cp_cam can) = 99%Z → e ∉ events).
Proof.
  intros events e.
  assert (Hiff : e ∈ events ↔
            (100 ≤ can_invalid_cnt (dec_cp_cam can))%Z
            ∧ car.CarParams.enableCamera (CP self) = true).
  { subst events e. by_rule.
    rewrite andb_true_iff, Z.leb_le. split.
    - intros H. rule_cases. split; assumption.
    - intros H. left. split; [exact H | reflexivity]. }
  split; [exact Hiff|]. split.
  - intros Hcam Hcnt. apply Hiff. rewrite Hcnt. split; [reflexivity | exact Hcam].
  - intros Hcnt Hin. apply Hiff in Hin. rewrite Hcnt in Hin.
    destruct Hin as [Hle _]. revert Hle. apply Z.lt_nge. reflexivity.
Qed.

Lemma camera_link_lost_event_witness :
  car.CarParams.enableCamera
    (CP (sample.interface (sample.params true true false (-1)))) = true
  ∧ can_invalid_cnt
      (dec_cp_cam (sample.decoded 100 (sample.drive 10 0 0 true false false))) = 100%Z
  ∧ create_event "invalidGiraffeToyota" [ET.PERMANENT]
    ∈ car.CarState.events
        (fst (update reference.env (sample.interface (sample.params true true false (-1)))
                (sample.control 0)
                (sample.decoded 100 (sample.drive 10 0 0 true false false))))
  ∧ can_invalid_cnt
      (dec_cp_cam (sample.decoded 99 (sample.drive 10 0 0 true false false))) = 99%Z
  ∧ create_event "invalidGiraffeToyota" [ET.PERMANENT]
    ∉ car.CarState.events
        (fst (update reference.env (sample.interface (sample.params true true false (-1)))
                (sample.control 0)
                (sample.decoded 99 (sample.drive 10 0 0 true false false)))).
Proof.
  split; [reflexivity|]. split; [reflexivity|]. split.
  - apply (proj1 (proj2 (camera_link_lost_event reference.env
                           (sample.interface (sample.params true true false (-1)))
                           (sample.control 0)
                           (sample.decoded 100 (sample.drive 10 0 0 true false false)))));
      reflexivity.
  - split; [reflexivity|].
    apply (proj2 (proj2 (camera_link_lost_event reference.env
                           (sample.interface (sample.params true true false (-1)))
                           (sample.control 0)
                           (sample.decoded 99 (sample.drive 10 0 0 true false false))))).
    reflexivity.
Defined.

(** ** Rule 12: pedal pressed *)

(** How often a named event occurs in a cycle's event list: expands the list
    into its guarded appends and discards those that build another event. *)
Ltac count_by_rule :=
  unfold update; cbn [fst car.CarState.events];
  rewrite !occurrences_app;
  rewrite ?occurrences_when_same;
  rewrite ?occurrences_when_other by event_neq.

(** An event the rule-10 block does not build does not occur in it. *)
Ltac count_block_zero :=
  match goal with |- context [occurrences ?e (when ?g (?l ++ ?r))] =>
    rewrite (occurrences_not_elem e (when g (l ++ r))) by
      (rewrite elem_of_when, !elem_of_app, list_elem_of_singleton,
         !elem_of_when_singleton;
       cbv [create_event fold_left set_event_type];
       let H := fresh in intros H; rule_cases)
  end.

(** C5. pedalPressed [NO_ENTRY, USER_DISABLE] is emitted iff the gas pedal is
    pressed and was not in the previous cycle, or the brake is pressed and was
    not in the previous cycle, or the brake is pressed while [vEgo > 0.001];
    it occurs at most once in a cycle's list.  The flags compared against are
    those the previous cycle left behind. *)
Theorem driver_override_event (env : Env) (self : CarInterface)
    (c : car.CarControl.t) (can : Decoded) :
  let ret := fst (update env self c can) in
  let self' := snd (update env self c can) in
  let e := create_event "pedalPressed" [ET.NO_ENTRY; ET.USER_DISABLE] in
  (e ∈ car.CarState.events ret ↔
     (car.CarState.gasPressed ret = true ∧ gas_pressed_prev self = false)
     ∨ (car.CarState.brakePressed ret = true ∧ brake_pressed_prev self = false)
     ∨ (car.CarState.brakePressed ret = true
        ∧ (0.001 <? car.CarState.vEgo ret)%float = true))
  ∧ occurrences e (car.CarState.events ret) ≤ 1
  ∧ gas_pressed_prev self' = car.CarState.gasPressed ret
  ∧ brake_pressed_prev self' = car.CarState.brakePressed ret.
Proof.
  intros ret self' e. split; [|split; [|split; reflexivity]].
  - set (g := car.CarState.gasPressed ret).
    set (b := car.CarState.brakePressed ret).
    set (v := (0.001 <? car.CarState.vEgo ret)%float).
    assert (Hiff : e ∈ car.CarState.events ret ↔
              (g && negb (gas_pressed_prev self))
              || (b && (negb (brake_pressed_prev self) || v)) = true).
    { subst e ret g b v. by_rule. split.
      - intros H. rule_cases. assumption.
      - intros H. do 11 right. left. split; [exact H | reflexivity]. }
    rewrite Hiff. clear Hiff.
    destruct g, b, v, (gas_pressed_prev self), (brake_pressed_prev self); simpl;
      split; intros H; try reflexivity; try discriminate H; try tauto;
      rule_cases; discriminate.
  - subst e ret. count_by_rule. count_block_zero.
    repeat match goal with |- context [if ?b then _ else _] => destruct b end;
      vm_compute; lia.
Qed.

Lemma driver_override_event_witness :
  create_event "pedalPressed" [ET.NO_ENTRY; ET.USER_DISABLE]
  ∈ car.CarState.events
      (fst (update reference.env (sample.interface (sample.params true true false (-1)))
              (sample.control 0)
              (sample.decoded 0 (sample.drive 10 5 0 true false false)))).
Proof.
  apply (proj1 (driver_override_event reference.env
                  (sample.interface (sample.params true true false (-1)))
                  (sample.control 0)
                  (sample.decoded 0 (sample.drive 10 5 0 true false false)))).
  left. split; reflexivity.
Defined.

(** ** Rule 11: engage and disengage requests *)

Lemma pcm_event_counts (env : Env) (self : CarInterface)
    (c : car.CarControl.t) (can : Decoded) :
  let events := car.CarState.events (fst (update env self c can)) in
  occurrences (create_event "pcmEnable" [ET.ENABLE]) events
    = (if pcm_acc_active (signals can) && negb (cruise_enabled_prev self) then 1 else 0)
  ∧ occurrences (create_event "pcmDisable" [ET.USER_DISABLE]) events
    = (if pcm_acc_active (signals can) then 0 else 1).
Proof.
  intros events. subst events.
  split; count_by_rule; count_block_zero;
    change (pcm_acc_active (CarState_update (CS self) (signals can)))
      with (pcm_acc_active (signals can));
    destruct (pcm_acc_active (signals can)), (cruise_enabled_prev self);
    reflexivity.
Qed.

Lemma run_cons (env : Env) (self : CarInterface) (c : car.CarControl.t)
    (can : Decoded) (cycles : list (car.CarControl.t * Decoded)) :
  run env self ((c, can) :: cycles)
  = (fst (update env self c can) :: fst (run env (snd (update env self c can)) cycles),
     snd (run env (snd (update env self c can)) cycles)).
Proof.
  cbn [run]. destruct (update env self c can) as [ret self']. cbn [fst snd].
  destruct (run env self' cycles) as [rets final]. reflexivity.
Qed.

Lemma run_length (env : Env) (cycles : list (car.CarControl.t * Decoded)) :
  ∀ self, length (fst (run env self cycles)) = length cycles.
Proof.
  induction cycles as [|[c can] cycles IH]; intros self; [reflexivity|].
  rewrite run_cons. cbn [fst length]. rewrite IH. reflexivity.
Qed.

Lemma disengage_every_cycle (env : Env) (cycles : list (car.CarControl.t * Decoded)) :
  ∀ self,
    Forall (fun r => car.CarState.CruiseState.enabled (car.CarState.cruiseState r) = false)
      (fst (run env self cycles)) →
    Forall (fun r => occurrences (create_event "pcmDisable" [ET.USER_DISABLE])
                       (car.CarState.events r) = 1)
      (fst (run env self cycles))
    ∧ occurrences (create_event "pcmDisable" [ET.USER_DISABLE])
        (concat (map car.CarState.events (fst (run env self cycles))))
      = length cycles.
Proof.
  induction cycles as [|[c can] cycles IH]; intros self.
  - intros _. split; [constructor | reflexivity].
  - rewrite run_cons. cbn [fst map concat length]. intros Hoff.
    apply Forall_cons in Hoff as [Hnow Hrest].
    destruct (IH _ Hrest) as [IHeach IHsum].
    assert (Hone : occurrences (create_event "pcmDisable" [ET.USER_DISABLE])
                     (car.CarState.events (fst (update env self c can))) = 1).
    { rewrite (proj2 (pcm_event_counts env self c can)).
      change (pcm_acc_active (signals can) = false) in Hnow.
      rewrite Hnow. reflexivity. }
    split.
    + constructor; [exact Hone | exact IHeach].
    + rewrite occurrences_app, Hone, IHsum. reflexivity.
Qed.

(** C6. In a cycle in which the cruise state goes from disabled to enabled,
    pcmEnable [ENABLE] occurs exactly once and pcmDisable [USER_DISABLE] not
    at all; over consecutive cycles that all report the cruise state
    disabled, pcmDisable [USER_DISABLE] occurs once in each cycle, so as
    often as there are cycles; the two events never occur in the same
    cycle. *)
Theorem cruise_request_events (env : Env) (self : CarInterface)
    (c : car.CarControl.t) (can : Decoded)
    (cycles : list (car.CarControl.t * Decoded)) :
  let ret := fst (update env self c can) in
  let self' := snd (update env self c can) in
  let enabled r := car.CarState.CruiseState.enabled (car.CarState.cruiseState r) in
  let engage := create_event "pcmEnable" [ET.ENABLE] in
  let disengage := create_event "pcmDisable" [ET.USER_DISABLE] in
  (cruise_enabled_prev self = false → enabled ret = true →
     occurrences engage (car.CarState.events ret) = 1
     ∧ occurrences disengage (car.CarState.events ret) = 0)
  ∧ cruise_enabled_prev self' = enabled ret
  ∧ (Forall (fun r => enabled r = false) (fst (run env self cycles)) →
     Forall (fun r => occurrences disengage (car.CarState.events r) = 1)
       (fst (run env self cycles))
     ∧ occurrences disengage
         (concat (map car.CarState.events (fst (run env self cycles))))
       = length cycles)
  ∧ ¬ (engage ∈ car.CarState.events ret ∧ disengage ∈ car.CarState.events ret).
Proof.
  intros ret self' enabled engage disengage.
  destruct (pcm_event_counts env self c can) as [Hen Hdis].
  fold ret engage in Hen. fold ret disengage in Hdis.
  change (enabled ret) with (pcm_acc_active (signals can)).
  split; [|split; [reflexivity | split]].
  - intros Hprev Hnow. rewrite Hen, Hdis, Hprev, Hnow. split; reflexivity.
  - apply (disengage_every_cycle env cycles self).
  - intros [Hin1 Hin2].
    apply occurrences_elem_of in Hin1. apply occurrences_elem_of in Hin2.
    rewrite Hen in Hin1. rewrite Hdis in Hin2.
    destruct (pcm_acc_active (signals can)); simpl in Hin1, Hin2; lia.
Qed.

Lemma cruise_request_events_witness :
  cruise_enabled_prev (sample.interface (sample.params true true false (-1))) = false
  ∧ car.CarState.CruiseState.enabled
      (car.CarState.cruiseState
         (fst (update reference.env (sample.interface (sample.params true true false (-1)))
                 (sample.control 0)
                 (sample.decoded 0 (sample.drive 10 0 0 true false false))))) = true
  ∧ (occurrences (create_event "pcmEnable" [ET.ENABLE])
       (car.CarState.events
          (fst (update reference.env (sample.interface (sample.params true true false (-1)))
                  (sample.control 0)
                  (sample.decoded 0 (sample.drive 10 0 0 true false false))))) = 1
     ∧ occurrences (create_event "pcmDisable" [ET.USER_DISABLE])
         (car.CarState.events
            (fst (update reference.env (sample.interface (sample.params true true false (-1)))
                    (sample.control 0)
                    (sample.decoded 0 (sample.drive 10 0 0 true false false))))) = 0)
  ∧ occurrences (create_event "pcmDisable" [ET.USER_DISABLE])
      (concat (map car.CarState.events
         (fst (run reference.env (sample.interface (sample.params true true false (-1)))
                 (replicate 3 (sample.control 0,
                               sample.decoded 0 (sample.drive 10 0 0 false false false)))))))
    = 3.
Proof.
  destruct (cruise_request_events reference.env
              (sample.interface (sample.params true true false (-1)))
              (sample.control 0)
              (sample.decoded 0 (sample.drive 10 0 0 true false false))
              (replicate 3 (sample.control 0,
                            sample.decoded 0 (sample.drive 10 0 0 false false false))))
    as (Hedge & _ & Hoff & _).
  split; [reflexivity|]. split; [reflexivity|]. split.
  - apply Hedge; reflexivity.
  - apply Hoff. vm_compute. repeat constructor.
Defined.


(** ** The gas pedal threshold *)

(** C7. With the gas interceptor present, [gasPressed] is true iff the raw
    pedal value is strictly greater than 15, so it is false at exactly 15;
    without it, iff the raw pedal value is strictly greater than 0. *)
Theorem gas_pressed_threshold (env : Env) (self : CarInterface)
    (c : car.CarControl.t) (can : Decoded) :
  let ret := fst (update env self c can) in
  let raw := pedal_gas (signals can) in
  (car.CarParams.enableGasInterceptor (CP self) = true →
     (car.CarState.gasPressed ret = true ↔ (15 <? raw)%float = true)
     ∧ (raw = 15%float → car.CarState.gasPressed ret = false))
  ∧ (car.CarParams.enableGasInterceptor (CP self) = false →
     (car.CarState.gasPressed ret = true ↔ (0 <? raw)%float = true)
     ∧ (raw = 0%float → car.CarState.gasPressed ret = false)).
Proof.
  intros ret raw. subst ret.
  rewrite update_gasPressed. fold raw.
  split; intros ->; (split; [reflexivity | intros ->; reflexivity]).
Qed.

Lemma gas_pressed_threshold_witness :
  car.CarParams.enableGasInterceptor
    (CP (sample.interface (sample.params true true true (-1)))) = true
  ∧ pedal_gas (signals (sample.decoded 0 (sample.drive 10 15 0 true false false)))
    = 15%float
  ∧ car.CarState.gasPressed
      (fst (update reference.env (sample.interface (sample.params true true true (-1)))
              (sample.control 0)
              (sample.decoded 0 (sample.drive 10 15 0 true false false)))) = false.
Proof.
  split; [reflexivity|]. split; [reflexivity|].
  apply (proj1 (gas_pressed_threshold reference.env
                  (sample.interface (sample.params true true true (-1)))
                  (sample.control 0)
                  (sample.decoded 0 (sample.drive 10 15 0 true false false))));
    reflexivity.
Defined.


(** ** Blinker button events *)

Section Blinkers.

Import car.CarState.

Lemma elem_of_buttonEvents (env : Env) (self : CarInterface)
    (c : car.CarControl.t) (can : Decoded) (be : ButtonEvent.t) :
  be ∈ buttonEvents (fst (update env self c can)) ↔
    (ne_bool (left_blinker_on (signals can)) (left_blinker_on (CS self)) = true
     ∧ be = ButtonEvent.mk ButtonEvent.Type_.leftBlinker (left_blinker_on (signals can)))
    ∨ (ne_bool (right_blinker_on (signals can)) (right_blinker_on (CS self)) = true
       ∧ be = ButtonEvent.mk ButtonEvent.Type_.rightBlinker (right_blinker_on (signals can))).
Proof.
  unfold update. cbn [fst buttonEvents].
  eapply iff_trans; [apply elem_of_when_singleton_app|].
  rewrite elem_of_when_singleton.
  cbn [CarState_update left_blinker_on prev_left_blinker_on
       right_blinker_on prev_right_blinker_on].
  replace (ne_bool (left_blinker_on (signals can)) false)
    with (left_blinker_on (signals can))
    by (destruct (left_blinker_on (signals can)); reflexivity).
  replace (ne_bool (right_blinker_on (signals can)) false)
    with (right_blinker_on (signals can))
    by (destruct (right_blinker_on (signals can)); reflexivity).
  reflexivity.
Qed.

Lemma ne_bool_true (x y : bool) : ne_bool x y = true ↔ x ≠ y.
Proof. unfold ne_bool. destruct x, y; simpl; split; congruence. Qed.

Lemma no_button_when_unchanged (env : Env) (cycles : list (car.CarControl.t * Decoded)) :
  ∀ self,
    (Forall (fun cyc => left_blinker_on (signals cyc.2) = left_blinker_on (CS self)) cycles →
     Forall (fun r => ∀ be, be ∈ buttonEvents r →
                        ButtonEvent.type be ≠ ButtonEvent.Type_.leftBlinker)
       (fst (run env self cycles)))
    ∧ (Forall (fun cyc => right_blinker_on (signals cyc.2) = right_blinker_on (CS self)) cycles →
       Forall (fun r => ∀ be, be ∈ buttonEvents r →
                          ButtonEvent.type be ≠ ButtonEvent.Type_.rightBlinker)
         (fst (run env self cycles))).
Proof.
  induction cycles as [|[c can] cycles IH]; intros self.
  - split; intros _; constructor.
  - rewrite run_cons. cbn [fst].
    split; intros Hsame; apply Forall_cons in Hsame as [Hnow Hrest];
      cbn [snd] in Hnow; rewrite <- Hnow in Hrest; constructor.
    + intros be Hin. apply elem_of_buttonEvents in Hin as [[Hne ->]|[_ ->]].
      * apply ne_bool_true in Hne. contradiction.
      * discriminate.
    + apply (proj1 (IH (snd (update env self c can)))). exact Hrest.
    + intros be Hin. apply elem_of_buttonEvents in Hin as [[_ ->]|[Hne ->]].
      * discriminate.
      * apply ne_bool_true in Hne. contradiction.
    + apply (proj2 (IH (snd (update env self c can)))). exact Hrest.
Qed.

(** C8. For each side, a blinker button event is emitted in a cycle iff that
    side's blinker flag differs from its value in the previous cycle; the
    event's [pressed] is the new value; and after a cycle (the transition),
    further cycles that leave the flag unchanged emit no blinker event for
    that side. *)
Theorem blinker_button_events (env : Env) (self : CarInterface)
    (c : car.CarControl.t) (can : Decoded)
    (cycles : list (car.CarControl.t * Decoded)) :
  let ret := fst (update env self c can) in
  let self' := snd (update env self c can) in
  let later := fst (run env self' cycles) in
  (* left *)
  ((∃ be, be ∈ buttonEvents ret ∧ ButtonEvent.type be = ButtonEvent.Type_.leftBlinker)
     ↔ left_blinker_on (signals can) ≠ left_blinker_on (CS self))
  ∧ (∀ be, be ∈ buttonEvents ret →
       ButtonEvent.type be = ButtonEvent.Type_.leftBlinker →
       ButtonEvent.pressed be = left_blinker_on (signals can))
  ∧ left_blinker_on (CS self') = left_blinker_on (signals can)
  ∧ (Forall (fun cyc => left_blinker_on (signals cyc.2) = left_blinker_on (signals can))
       cycles →
     Forall (fun r => ∀ be, be ∈ buttonEvents r →
                        ButtonEvent.type be ≠ ButtonEvent.Type_.leftBlinker) later)
  (* right *)
  ∧ ((∃ be, be ∈ buttonEvents ret ∧ ButtonEvent.type be = ButtonEvent.Type_.rightBlinker)
       ↔ right_blinker_on (signals can) ≠ right_blinker_on (CS self))
  ∧ (∀ be, be ∈ buttonEvents ret →
       ButtonEvent.type be = ButtonEvent.Type_.rightBlinker →
       ButtonEvent.pressed be = right_blinker_on (signals can))
  ∧ right_blinker_on (CS self') = right_blinker_on (signals can)
  ∧ (Forall (fun cyc => right_blinker_on (signals cyc.2) = right_blinker_on (signals can))
       cycles →
     Forall (fun r => ∀ be, be ∈ buttonEvents r →
                        ButtonEvent.type be ≠ ButtonEvent.Type_.rightBlinker) later).
Proof.
  intros ret self' later.
  destruct (no_button_when_unchanged env cycles self') as [Hleft Hright].
  split; [|split; [|split; [reflexivity | split; [exact Hleft|]]]];
    [| | split; [|split; [|split; [reflexivity | exact Hright]]]].
  - rewrite <- ne_bool_true. split.
    + intros (be & Hin & Hty). apply elem_of_buttonEvents in Hin as [[Hne _]|[_ ->]].
      * exact Hne.
      * discriminate Hty.
    + intros Hne. eexists. split.
      * apply elem_of_buttonEvents. left. split; [exact Hne | reflexivity].
      * reflexivity.
  - intros be Hin Hty. apply elem_of_buttonEvents in Hin as [[_ ->]|[_ ->]].
    + reflexivity.
    + discriminate Hty.
  - rewrite <- ne_bool_true. split.
    + intros (be & Hin & Hty). apply elem_of_buttonEvents in Hin as [[_ ->]|[Hne _]].
      * discriminate Hty.
      * exact Hne.
    + intros Hne. eexists. split.
      * apply elem_of_buttonEvents. right. split; [exact Hne | reflexivity].
      * reflexivity.
  - intros be Hin Hty. apply elem_of_buttonEvents in Hin as [[_ ->]|[_ ->]].
    + discriminate Hty.
    + reflexivity.
Qed.

Lemma blinker_button_events_witness :
  Forall (fun cyc : car.CarControl.t * Decoded =>
            left_blinker_on (signals cyc.2)
            = left_blinker_on
                (signals (sample.decoded 0 (sample.drive 10 0 0 true true false))))
    (replicate 3 (sample.control 0,
                  sample.decoded 0 (sample.drive 10 0 0 true true false)))
  ∧ Forall (fun r => ∀ be, be ∈ car.CarState.buttonEvents r →
                       car.CarState.ButtonEvent.type be
                       ≠ car.CarState.ButtonEvent.Type_.leftBlinker)
      (fst (run reference.env
              (snd (update reference.env
                      (sample.interface (sample.params true true false (-1)))
                      (sample.control 0)
                      (sample.decoded 0 (sample.drive 10 0 0 true true false))))
              (replicate 3 (sample.control 0,
                            sample.decoded 0 (sample.drive 10 0 0 true true false))))).
Proof.
  assert (Hsame :
    Forall (fun cyc : car.CarControl.t * Decoded =>
              left_blinker_on (signals cyc.2)
              = left_blinker_on
                  (signals (sample.decoded 0 (sample.drive 10 0 0 true true false))))
      (replicate 3 (sample.control 0,
                    sample.decoded 0 (sample.drive 10 0 0 true true false))))
    by (repeat constructor).
  split; [exact Hsame|].
  destruct (blinker_button_events reference.env
              (sample.interface (sample.params true true false (-1)))
              (sample.control 0)
              (sample.decoded 0 (sample.drive 10 0 0 true true false))
              (replicate 3 (sample.control 0,
                            sample.decoded 0 (sample.drive 10 0 0 true true false))))
    as (_ & _ & _ & Hquiet & _).
  apply Hquiet. exact Hsame.
Defined.

End Blinkers.

(** ** Parameter derivation *)

Lemma get_params_unknown (env : Env) (candidate : string)
    (fingerprint : gmap Z (gmap Z Z)) (vin : string) (has_relay : bool) :
  candidate ≠ CAR.OLD_CAR →
  get_params env candidate fingerprint vin has_relay
  = Raise (UnboundLocalError "tire_stiffness_factor").
Proof.
  intros Hne. unfold get_params.
  rewrite (bool_decide_eq_false_2 (candidate = CAR.OLD_CAR)) by exact Hne.
  reflexivity.
Qed.

(** C1. For a vehicle identity other than [CAR.OLD_CAR], [get_params] raises
    (the local [tire_stiffness_factor] is unbound at line 92) and returns no
    parameter record. *)
Theorem unknown_identity_is_fatal (env : Env) (candidate : string)
    (fingerprint : gmap Z (gmap Z Z)) (vin : string) (has_relay : bool) :
  candidate ≠ CAR.OLD_CAR →
  get_params env candidate fingerprint vin has_relay
    = Raise (UnboundLocalError "tire_stiffness_factor")
  ∧ ∀ ret, get_params env candidate fingerprint vin has_relay ≠ Ok ret.
Proof.
  intros Hne. rewrite (get_params_unknown env _ _ _ _ Hne).
  split; [reflexivity | intros ret; discriminate].
Qed.

Lemma unknown_identity_is_fatal_witness :
  "PRIUS" ≠ CAR.OLD_CAR
  ∧ get_params reference.env "PRIUS" sample.observed_fingerprint "" true
    = Raise (UnboundLocalError "tire_stiffness_factor")
  ∧ ∀ ret, get_params reference.env "PRIUS" sample.observed_fingerprint "" true ≠ Ok ret.
Proof.
  split; [discriminate|].
  apply (unknown_identity_is_fatal reference.env "PRIUS"). discriminate.
Defined.

(** The registered identity with a fingerprint that has a bus-0 map: the
    record returned, field by field where the claims need it. *)
Lemma get_params_OLD_CAR (env : Env) (fingerprint : gmap Z (gmap Z Z))
    (fp0 : gmap Z Z) (vin : string) (has_relay : bool) :
  fingerprint !! 0%Z = Some fp0 →
  ∃ ret, get_params env CAR.OLD_CAR fingerprint vin has_relay = Ok ret
    ∧ car.CarParams.enableCruise ret = true
    ∧ car.CarParams.enableGasInterceptor ret = bool_decide (is_Some (fp0 !! 0x201%Z))
    ∧ car.CarParams.enableCamera ret
      = is_ecu_disconnected env fp0 FINGERPRINTS ECU_FINGERPRINT CAR.OLD_CAR ECU.CAM
        || has_relay
    ∧ car.CarParams.enableDsu ret
      = is_ecu_disconnected env fp0 FINGERPRINTS ECU_FINGERPRINT CAR.OLD_CAR ECU.DSU
    ∧ car.CarParams.minEnableSpeed ret = (-1)%float
    ∧ (fp0 !! 0x201%Z = None →
       car.CarParams.gasMaxBP ret = [0%float]
       ∧ car.CarParams.gasMaxV ret = [0.5%float]
       ∧ car.CarParams.LongitudinalPIDTuning.kpV (car.CarParams.longitudinalTuning ret)
         = map f32 [3.6%float; 2.4%float; 1.5%float]).
Proof.
  intros Hfp. unfold get_params.
  rewrite (bool_decide_eq_true_2 (CAR.OLD_CAR = CAR.OLD_CAR)) by reflexivity.
  unfold getitem. rewrite Hfp.
  cbv beta iota zeta delta [mbind result_bind local Ok Raise].
  destruct (scale_tire_stiffness env _ _ _ _) as [front rear].
  unfold TSS2_CAR.
  rewrite (bool_decide_eq_false_2 (CAR.OLD_CAR ∈ [])) by apply not_elem_of_nil.
  rewrite andb_false_r, orb_false_r.
  destruct (bool_decide (is_Some (fp0 !! 0x201%Z))) eqn:Hint;
    (eexists; split; [reflexivity|]);
    do 5 (split; [reflexivity|]);
    intros Hno;
    first [ rewrite Hno in Hint; vm_compute in Hint; discriminate Hint
          | repeat split; reflexivity ].
Qed.

(** Counterexample to C2: on the registered identity, with the DSU's message
    on the observed bus, the relay flag leaves [enableDsu] false. *)
Lemma relay_does_not_force_dsu :
  ¬ (∃ ret, get_params reference.env CAR.OLD_CAR sample.observed_fingerprint "" true = Ok ret
       ∧ car.CarParams.enableCamera ret = true
       ∧ car.CarParams.enableDsu ret = true).
Proof.
  intros (ret & Hret & _ & Hdsu).
  destruct (get_params_OLD_CAR reference.env sample.observed_fingerprint (OLD_CAR_row 8) "" true)
    as (ret' & Hret' & _ & _ & _ & Hdsu' & _); [reflexivity|].
  rewrite Hret in Hret'. injection Hret' as <-.
  rewrite Hdsu in Hdsu'. vm_compute in Hdsu'. discriminate Hdsu'.
Qed.

(** C2, amended. On the registered identity, with a fingerprint that has a
    bus-0 map, [get_params] with the relay flag set returns a record with
    [enableCamera] true whatever the ECU detector says; [enableDsu] is the
    detector's answer for the DSU: the relay forces it only for identities in
    [TSS2_CAR], which is empty. *)
Theorem relay_forces_camera (env : Env) (fingerprint : gmap Z (gmap Z Z))
    (fp0 : gmap Z Z) (vin : string) :
  fingerprint !! 0%Z = Some fp0 →
  ∃ ret, get_params env CAR.OLD_CAR fingerprint vin true = Ok ret
    ∧ car.CarParams.enableCamera ret = true
    ∧ car.CarParams.enableDsu ret
      = is_ecu_disconnected env fp0 FINGERPRINTS ECU_FINGERPRINT CAR.OLD_CAR ECU.DSU.
Proof.
  intros Hfp.
  destruct (get_params_OLD_CAR env fingerprint fp0 vin true Hfp)
    as (ret & Hret & _ & _ & Hcam & Hdsu & _).
  exists ret. split; [exact Hret|]. split; [|exact Hdsu].
  rewrite Hcam. apply orb_true_r.
Qed.

Lemma relay_forces_camera_witness :
  sample.observed_fingerprint !! 0%Z = Some (OLD_CAR_row 8)
  ∧ ∃ ret, get_params reference.env CAR.OLD_CAR sample.observed_fingerprint "" true = Ok ret
      ∧ car.CarParams.enableCamera ret = true
      ∧ car.CarParams.enableDsu ret
        = is_ecu_disconnected reference.env (OLD_CAR_row 8) FINGERPRINTS ECU_FINGERPRINT
            CAR.OLD_CAR ECU.DSU.
Proof.
  split; [reflexivity|].
  apply (relay_forces_camera reference.env sample.observed_fingerprint (OLD_CAR_row 8) "").
  reflexivity.
Defined.

(** Counterexample to C9: the record returned for [CAR.OLD_CAR] and four
    empty buses does not hold the gains 3.6 and 2.4; the Float32 fields hold
    3.5999999046325684 and 2.4000000953674316. *)
Lemma stored_gains_are_not_the_literals :
  ¬ (∃ ret, get_params reference.env CAR.OLD_CAR sample.empty_fingerprint "" false = Ok ret
       ∧ car.CarParams.minEnableSpeed ret = (-1)%float
       ∧ car.CarParams.gasMaxV ret = [0.5%float]
       ∧ car.CarParams.gasMaxBP ret = [0%float]
       ∧ car.CarParams.LongitudinalPIDTuning.kpV (car.CarParams.longitudinalTuning ret)
         = [3.6%float; 2.4%float; 1.5%float]).
Proof.
  intros (ret & Hret & _ & _ & _ & HkpV).
  destruct (get_params_OLD_CAR reference.env sample.empty_fingerprint ∅ "" false)
    as (ret' & Hret' & _ & _ & _ & _ & _ & Hcurves); [reflexivity|].
  rewrite Hret in Hret'. injection Hret' as <-.
  destruct (Hcurves eq_refl) as (_ & _ & Hstored).
  rewrite HkpV in Hstored. vm_compute in Hstored. discriminate Hstored.
Qed.

(** C9, amended. For [CAR.OLD_CAR] (stop-and-go capable) and a fingerprint
    whose bus-0 map lacks the interceptor message 0x201, [get_params] returns
    [minEnableSpeed = -1], the gas limit curve [0.5] at breakpoint [0], and as
    longitudinal proportional gains the Float32 values nearest to 3.6, 2.4
    and 1.5, which are 3.5999999046325684, 2.4000000953674316 and 1.5. *)
Theorem reference_vehicle_without_interceptor (env : Env)
    (fingerprint : gmap Z (gmap Z Z)) (fp0 : gmap Z Z) (vin : string)
    (has_relay : bool) :
  fingerprint !! 0%Z = Some fp0 →
  fp0 !! 0x201%Z = None →
  ∃ ret, get_params env CAR.OLD_CAR fingerprint vin has_relay = Ok ret
    ∧ car.CarParams.minEnableSpeed ret = (-1)%float
    ∧ car.CarParams.gasMaxV ret = [0.5%float]
    ∧ car.CarParams.gasMaxBP ret = [0%float]
    ∧ car.CarParams.LongitudinalPIDTuning.kpV (car.CarParams.longitudinalTuning ret)
      = map f32 [3.6%float; 2.4%float; 1.5%float]
    ∧ car.CarParams.LongitudinalPIDTuning.kpV (car.CarParams.longitudinalTuning ret)
      = [3.5999999046325684%float; 2.4000000953674316%float; 1.5%float].
Proof.
  intros Hfp Hno.
  destruct (get_params_OLD_CAR env fingerprint fp0 vin has_relay Hfp)
    as (ret & Hret & _ & _ & _ & _ & Hmin & Hcurves).
  destruct (Hcurves Hno) as (HBP & HV & HkpV).
  exists ret. do 4 (split; [assumption|]). split; [exact HkpV|].
  rewrite HkpV. reflexivity.
Qed.

Lemma reference_vehicle_without_interceptor_witness :
  sample.empty_fingerprint !! 0%Z = Some ∅
  ∧ (∅ : gmap Z Z) !! 0x201%Z = None
  ∧ ∃ ret, get_params reference.env CAR.OLD_CAR sample.empty_fingerprint "" false = Ok ret
      ∧ car.CarParams.minEnableSpeed ret = (-1)%float
      ∧ car.CarParams.gasMaxV ret = [0.5%float]
      ∧ car.CarParams.gasMaxBP ret = [0%float]
      ∧ car.CarParams.LongitudinalPIDTuning.kpV (car.CarParams.longitudinalTuning ret)
        = map f32 [3.6%float; 2.4%float; 1.5%float]
      ∧ car.CarParams.LongitudinalPIDTuning.kpV (car.CarParams.longitudinalTuning ret)
        = [3.5999999046325684%float; 2.4000000953674316%float; 1.5%float].
Proof.
  split; [reflexivity|]. split; [reflexivity|].
  apply (reference_vehicle_without_interceptor reference.env sample.empty_fingerprint ∅ "" false);
    reflexivity.
Defined.

(** C10. Whatever the inputs, a record returned by [get_params] has
    [enableCruise] true: line 54 negates [enableGasInterceptor] while it
    still holds the fresh message's false, and line 108 assigns the detection
    afterwards.  With the interceptor message in the fingerprint the record
    returned has both [enableGasInterceptor] and [enableCruise] true. *)
Theorem enable_cruise_always_true (env : Env) (candidate : string)
    (fingerprint : gmap Z (gmap Z Z)) (vin : string) (has_relay : bool)
    (fp0 : gmap Z Z) :
  (∀ ret, get_params env candidate fingerprint vin has_relay = Ok ret →
     car.CarParams.enableCruise ret = true)
  ∧ (fingerprint !! 0%Z = Some fp0 → is_Some (fp0 !! 0x201%Z) →
     ∃ ret, get_params env CAR.OLD_CAR fingerprint vin has_relay = Ok ret
       ∧ car.CarParams.enableGasInterceptor ret = true
       ∧ car.CarParams.enableCruise ret = true).
Proof.
  split.
  - intros ret Hret.
    destruct (decide (candidate = CAR.OLD_CAR)) as [->|Hne].
    + destruct (fingerprint !! 0%Z) as [fp|] eqn:Hfp.
      * destruct (get_params_OLD_CAR env fingerprint fp vin has_relay Hfp)
          as (ret' & Hret' & Hcruise & _).
        rewrite Hret in Hret'. injection Hret' as <-. exact Hcruise.
      * exfalso. revert Hret. unfold get_params.
        rewrite (bool_decide_eq_true_2 (CAR.OLD_CAR = CAR.OLD_CAR)) by reflexivity.
        unfold getitem. rewrite Hfp.
        cbv beta iota zeta delta [mbind result_bind local Ok Raise].
        destruct (scale_tire_stiffness env _ _ _ _). discriminate.
    + rewrite (get_params_unknown env _ _ _ _ Hne) in Hret. discriminate Hret.
  - intros Hfp Hint.
    destruct (get_params_OLD_CAR env fingerprint fp0 vin has_relay Hfp)
      as (ret & Hret & Hcruise & Hgas & _).
    exists ret. split; [exact Hret|]. split; [|exact Hcruise].
    rewrite Hgas. apply bool_decide_eq_true_2. exact Hint.
Qed.

Lemma enable_cruise_always_true_witness :
  sample.interceptor_fingerprint !! 0%Z = Some {[ 0x201%Z := 6%Z ]}
  ∧ is_Some (({[ 0x201%Z := 6%Z ]} : gmap Z Z) !! 0x201%Z)
  ∧ ∃ ret, get_params reference.env CAR.OLD_CAR sample.interceptor_fingerprint "" false
           = Ok ret
      ∧ car.CarParams.enableGasInterceptor ret = true
      ∧ car.CarParams.enableCruise ret = true.
Proof.
  destruct (enable_cruise_always_true reference.env CAR.OLD_CAR
              sample.interceptor_fingerprint "" false {[ 0x201%Z := 6%Z ]})
    as [Hall Hdetected].
  split; [reflexivity|]. split; [eexists; reflexivity|].
  destruct Hdetected as (ret & Hret & Hgas & _); [reflexivity | eexists; reflexivity |].
  exists ret. split; [exact Hret|]. split; [exact Hgas|].
  apply Hall. exact Hret.
Defined.

(** * Further properties *)

(** ** The event list as a whole *)

Lemma sublist_when_cons {A} (b : bool) (x : A) (l k : list A) :
  l `sublist_of` k → when b [x] ++ l `sublist_of` x :: k.
Proof.
  intros Hsub. destruct b; simpl.
  - apply sublist_skip. exact Hsub.
  - apply sublist_cons. exact Hsub.
Qed.

Lemma sublist_speed_block {A} (g g1 g2 : bool) (x y z : A) (l k : list A) :
  l `sublist_of` k →
  when g ([x] ++ when g1 [y] ++ when g2 [z]) ++ l `sublist_of` x :: y :: z :: k.
Proof.
  intros Hsub. destruct g; simpl.
  - apply sublist_skip.
    rewrite <- app_assoc. apply sublist_when_cons.
    apply sublist_when_cons. exact Hsub.
  - do 3 apply sublist_cons. exact Hsub.
Qed.

Lemma sublist_pcm_block {A} (g g' : bool) (x y : A) (l k : list A) :
  l `sublist_of` k →
  (if g then [x] else if g' then [y] else []) ++ l `sublist_of` x :: y :: k.
Proof.
  intros Hsub. destruct g; [|destruct g']; simpl.
  - apply sublist_skip, sublist_cons. exact Hsub.
  - apply sublist_cons, sublist_skip. exact Hsub.
  - do 2 apply sublist_cons. exact Hsub.
Qed.

Lemma length_when_cons {A} (b : bool) (x : A) (l : list A) :
  length (when b [x] ++ l) ≤ S (length l).
Proof. destruct b; simpl; lia. Qed.

Lemma length_speed_block {A} (g g1 g2 : bool) (x y z : A) (l : list A) :
  length (when g ([x] ++ when g1 [y] ++ when g2 [z]) ++ l) ≤ S (S (S (length l))).
Proof. destruct g, g1, g2; simpl; lia. Qed.

Lemma length_pcm_block {A} (g g' : bool) (x y : A) (l : list A) :
  length ((if g then [x] else if g' then [y] else []) ++ l) ≤ S (length l).
Proof. destruct g, g'; simpl; lia. Qed.

Lemma rule_order_NoDup : NoDup rule_order.
Proof. apply (bool_decide_unpack _). vm_compute. reflexivity. Qed.

Lemma events_sublist_rule_order (env : Env) (self : CarInterface)
    (c : car.CarControl.t) (can : Decoded) :
  car.CarState.events (fst (update env self c can)) `sublist_of` rule_order.
Proof.
  unfold update, rule_order. cbn [fst car.CarState.events].
  do 9 apply sublist_when_cons.
  apply sublist_speed_block. apply sublist_pcm_block.
  apply sublist_when_cons.
  rewrite <- (app_nil_r (when _ _)). apply sublist_when_cons. constructor.
Qed.

(** X1. The event list of a cycle is a subsequence of the sixteen possible
    events in rule order: no event occurs twice, events keep the order of the
    rules, and a cycle emits at most fifteen (pcmEnable and pcmDisable exclude
    each other). *)
Theorem events_follow_rule_order (env : Env) (self : CarInterface)
    (c : car.CarControl.t) (can : Decoded) :
  let events := car.CarState.events (fst (update env self c can)) in
  events `sublist_of` rule_order
  ∧ NoDup events
  ∧ length events ≤ 15.
Proof.
  intros events.
  pose proof (events_sublist_rule_order env self c can) as Hsub. fold events in Hsub.
  split; [exact Hsub|]. split.
  - exact (sublist_NoDup _ _ rule_order_NoDup Hsub).
  - subst events. unfold update. cbn [fst car.CarState.events].
    do 9 (eapply Nat.le_trans; [apply length_when_cons | apply le_n_S]).
    eapply Nat.le_trans; [apply length_speed_block | do 3 apply le_n_S].
    eapply Nat.le_trans; [apply length_pcm_block | apply le_n_S].
    eapply Nat.le_trans; [apply length_when_cons | apply le_n_S].
    destruct (if car.CarParams.enableGasInterceptor (CP self) then _ else _);
      simpl; lia.
Qed.

(** ** The level rules 2 to 9 *)

(** X2. Without the DSU flag, none of the seven DSU-gated events (wrongGear,
    espDisabled, wrongCarMode, reverseGear, lowSpeedLockout, the two
    speedTooLow events) nor manualRestart is emitted, whatever the signals. *)
Theorem dsu_gated_rules_silent (env : Env) (self : CarInterface)
    (c : car.CarControl.t) (can : Decoded) :
  car.CarParams.enableDsu (CP self) = false →
  ∀ e, e ∈ car.CarState.events (fst (update env self c can)) →
    e ∉ [ create_event "wrongGear" [ET.NO_ENTRY; ET.SOFT_DISABLE];
          create_event "espDisabled" [ET.NO_ENTRY; ET.SOFT_DISABLE];
          create_event "wrongCarMode" [ET.NO_ENTRY; ET.USER_DISABLE];
          create_event "reverseGear" [ET.NO_ENTRY; ET.IMMEDIATE_DISABLE];
          create_event "lowSpeedLockout" [ET.NO_ENTRY; ET.PERMANENT];
          create_event "speedTooLow" [ET.NO_ENTRY];
          create_event "speedTooLow" [ET.IMMEDIATE_DISABLE];
          create_event "manualRestart" [ET.WARNING] ].
Proof.
  intros Hdsu e Hin Hgated.
  rewrite elem_of_events, elem_of_speed_too_low_block, elem_of_pcm_block in Hin.
  rewrite Hdsu, !andb_false_r in Hin.
  rewrite !elem_of_cons, elem_of_nil in Hgated.
  cbv [create_event fold_left set_event_type] in Hin, Hgated.
  destruct Hgated as [->|[->|[->|[->|[->|[->|[->|[->|[]]]]]]]]]; rule_cases; discriminate.
Qed.

Lemma dsu_gated_rules_silent_witness :
  car.CarParams.enableDsu (CP (sample.interface (sample.params true false false 8.5)))
  = false
  ∧ ∀ e, e ∈ car.CarState.events
             (fst (update reference.env
                     (sample.interface (sample.params true false false 8.5))
                     (sample.control 0.2)
                     (sample.decoded 0 (sample.drive 0 0 0 true false false)))) →
      e ∉ [ create_event "wrongGear" [ET.NO_ENTRY; ET.SOFT_DISABLE];
            create_event "espDisabled" [ET.NO_ENTRY; ET.SOFT_DISABLE];
            create_event "wrongCarMode" [ET.NO_ENTRY; ET.USER_DISABLE];
            create_event "reverseGear" [ET.NO_ENTRY; ET.IMMEDIATE_DISABLE];
            create_event "lowSpeedLockout" [ET.NO_ENTRY; ET.PERMANENT];
            create_event "speedTooLow" [ET.NO_ENTRY];
            create_event "speedTooLow" [ET.IMMEDIATE_DISABLE];
            create_event "manualRestart" [ET.WARNING] ].
Proof.
  split; [reflexivity|].
  apply (dsu_gated_rules_silent reference.env
           (sample.interface (sample.params true false false 8.5))
           (sample.control 0.2)
           (sample.decoded 0 (sample.drive 0 0 0 true false false))).
  reflexivity.
Defined.

(** X3. reverseGear is emitted iff the gear is reverse and the DSU flag is set,
    wrongGear iff the gear is not drive and the DSU flag is set; so reverseGear
    never appears without wrongGear in the same cycle. *)
Theorem reverse_gear_comes_with_wrong_gear (env : Env) (self : CarInterface)
    (c : car.CarControl.t) (can : Decoded) :
  let events := car.CarState.events (fst (update env self c can)) in
  let wrong := create_event "wrongGear" [ET.NO_ENTRY; ET.SOFT_DISABLE] in
  let reverse := create_event "reverseGear" [ET.NO_ENTRY; ET.IMMEDIATE_DISABLE] in
  (wrong ∈ events ↔
     gear_shifter (signals can) ≠ car.CarState.GearShifter.drive
     ∧ car.CarParams.enableDsu (CP self) = true)
  ∧ (reverse ∈ events ↔
       gear_shifter (signals can) = car.CarState.GearShifter.reverse
       ∧ car.CarParams.enableDsu (CP self) = true)
  ∧ (reverse ∈ events → wrong ∈ events).
Proof.
  intros events wrong reverse.
  assert (Hwrong : wrong ∈ events ↔
            gear_shifter (signals can) ≠ car.CarState.GearShifter.drive
            ∧ car.CarParams.enableDsu (CP self) = true).
  { subst events wrong. by_rule. split.
    - intros H. rule_cases.
      match goal with G : _ && _ = true |- _ => apply andb_true_iff in G as [Hg Hd] end.
      apply negb_true_iff, bool_decide_eq_false in Hg. split; assumption.
    - intros [Hg Hd]. right. left. split; [|reflexivity].
      apply andb_true_iff. split; [|exact Hd].
      apply negb_true_iff, bool_decide_eq_false. exact Hg. }
  assert (Hreverse : reverse ∈ events ↔
            gear_shifter (signals can) = car.CarState.GearShifter.reverse
            ∧ car.CarParams.enableDsu (CP self) = true).
  { subst events reverse. by_rule. split.
    - intros H. rule_cases.
      match goal with G : _ && _ = true |- _ => apply andb_true_iff in G as [Hg Hd] end.
      apply bool_decide_eq_true in Hg. split; assumption.
    - intros [Hg Hd]. do 6 right. left. split; [|reflexivity].
      apply andb_true_iff. split; [|exact Hd].
      apply bool_decide_eq_true. exact Hg. }
  split; [exact Hwrong|]. split; [exact Hreverse|].
  intros [Hgear Hdsu]%Hreverse. apply Hwrong. split; [|exact Hdsu].
  rewrite Hgear. discriminate.
Qed.

Lemma reverse_gear_comes_with_wrong_gear_witness :
  create_event "reverseGear" [ET.NO_ENTRY; ET.IMMEDIATE_DISABLE]
  ∈ car.CarState.events
      (fst (update reference.env (sample.interface (sample.params true true false (-1)))
              (sample.control 0) (sample.decoded 0 reversing_signals)))
  ∧ create_event "wrongGear" [ET.NO_ENTRY; ET.SOFT_DISABLE]
    ∈ car.CarState.events
        (fst (update reference.env (sample.interface (sample.params true true false (-1)))
                (sample.control 0) (sample.decoded 0 reversing_signals))).
Proof.
  destruct (reverse_gear_comes_with_wrong_gear reference.env
              (sample.interface (sample.params true true false (-1)))
              (sample.control 0) (sample.decoded 0 reversing_signals))
    as (_ & Hreverse & Hboth).
  assert (Hin : create_event "reverseGear" [ET.NO_ENTRY; ET.IMMEDIATE_DISABLE]
                ∈ car.CarState.events
                    (fst (update reference.env
                            (sample.interface (sample.params true true false (-1)))
                            (sample.control 0) (sample.decoded 0 reversing_signals))))
    by (apply Hreverse; split; reflexivity).
  split; [exact Hin | exact (Hboth Hin)].
Defined.

(** X4. doorOpen, seatbeltNotLatched and steerTempUnavailable depend on their
    signal alone: each is emitted iff the door is not closed, the belt is not
    latched, the steering fault is set, whatever the parameters and the other
    signals. *)
Theorem ungated_rules (env : Env) (self : CarInterface)
    (c : car.CarControl.t) (can : Decoded) :
  let events := car.CarState.events (fst (update env self c can)) in
  (create_event "doorOpen" [ET.NO_ENTRY; ET.SOFT_DISABLE] ∈ events
     ↔ door_all_closed (signals can) = false)
  ∧ (create_event "seatbeltNotLatched" [ET.NO_ENTRY; ET.SOFT_DISABLE] ∈ events
       ↔ seatbelt (signals can) = false)
  ∧ (create_event "steerTempUnavailable" [ET.NO_ENTRY; ET.WARNING] ∈ events
       ↔ steer_error (signals can) = true).
Proof.
  intros events. subst events.
  split; [|split]; by_rule; split.
  - intros H. rule_cases. apply negb_true_iff. assumption.
  - intros H. do 2 right. left. split; [apply negb_true_iff; exact H | reflexivity].
  - intros H. rule_cases. apply negb_true_iff. assumption.
  - intros H. do 3 right. left. split; [apply negb_true_iff; exact H | reflexivity].
  - intros H. rule_cases. assumption.
  - intros H. do 7 right. left. split; [exact H | reflexivity].
Qed.

(** ** Rule 13 and the pedal events together *)

(** X5. pedalPressed [PRE_ENABLE] is emitted in exactly the cycles with
    [gasPressed]; in a cycle in which the gas goes from released to pressed
    both pedalPressed events are emitted, the [NO_ENTRY, USER_DISABLE] one
    first, and they are the last two events of the list. *)
Theorem pre_enable_event (env : Env) (self : CarInterface)
    (c : car.CarControl.t) (can : Decoded) :
  let ret := fst (update env self c can) in
  let override := create_event "pedalPressed" [ET.NO_ENTRY; ET.USER_DISABLE] in
  let advisory := create_event "pedalPressed" [ET.PRE_ENABLE] in
  (advisory ∈ car.CarState.events ret ↔ car.CarState.gasPressed ret = true)
  ∧ (car.CarState.gasPressed ret = true → gas_pressed_prev self = false →
     ∃ before, car.CarState.events ret = before ++ [override; advisory]).
Proof.
  intros ret override advisory. split.
  - subst ret advisory. by_rule. split.
    + intros H. rule_cases. assumption.
    + intros H. do 12 right. split; [exact H | reflexivity].
  - intros Hgas Hprev. subst ret override advisory.
    rewrite update_gasPressed in Hgas.
    unfold update. cbn [fst car.CarState.events].
    change (pedal_gas (CarState_update (CS self) (signals can)))
      with (pedal_gas (signals can)).
    rewrite Hgas, Hprev. cbn [negb andb orb when].
    rewrite !app_assoc. rewrite <- app_assoc. eexists. reflexivity.
Qed.

Lemma pre_enable_event_witness :
  car.CarState.gasPressed
    (fst (update reference.env (sample.interface (sample.params true true false (-1)))
            (sample.control 0)
            (sample.decoded 0 (sample.drive 10 5 0 true false false)))) = true
  ∧ gas_pressed_prev (sample.interface (sample.params true true false (-1))) = false
  ∧ ∃ before,
      car.CarState.events
        (fst (update reference.env (sample.interface (sample.params true true false (-1)))
                (sample.control 0)
                (sample.decoded 0 (sample.drive 10 5 0 true false false))))
      = before ++ [ create_event "pedalPressed" [ET.NO_ENTRY; ET.USER_DISABLE];
                    create_event "pedalPressed" [ET.PRE_ENABLE] ].
Proof.
  split; [reflexivity|]. split; [reflexivity|].
  apply (proj2 (pre_enable_event reference.env
                  (sample.interface (sample.params true true false (-1)))
                  (sample.control 0)
                  (sample.decoded 0 (sample.drive 10 5 0 true false false))));
    reflexivity.
Defined.

(** ** Pedal events over consecutive cycles *)

Lemma pedal_event_counts (env : Env) (self : CarInterface)
    (c : car.CarControl.t) (can : Decoded) :
  let ret := fst (update env self c can) in
  occurrences (create_event "pedalPressed" [ET.NO_ENTRY; ET.USER_DISABLE])
    (car.CarState.events ret)
    = (if (car.CarState.gasPressed ret && negb (gas_pressed_prev self))
          || (car.CarState.brakePressed ret
              && (negb (brake_pressed_prev self)
                  || (0.001 <? car.CarState.vEgo ret)%float))
       then 1 else 0)
  ∧ occurrences (create_event "pedalPressed" [ET.PRE_ENABLE])
      (car.CarState.events ret)
    = (if car.CarState.gasPressed ret then 1 else 0).
Proof.
  intros ret. subst ret.
  split; count_by_rule; count_block_zero;
    change (pcm_acc_active (CarState_update (CS self) (signals can)))
      with (pcm_acc_active (signals can));
    destruct (pcm_acc_active (signals can)), (cruise_enabled_prev self);
    cbn [andb negb];
    match goal with
    | |- context [occurrences ?e [?e']] =>
        replace (occurrences e [e']) with 0 by (vm_compute; reflexivity)
    | |- context [occurrences ?e []] =>
        replace (occurrences e []) with 0 by reflexivity
    end;
    cbn [Nat.add]; rewrite ?Nat.add_0_r; reflexivity.
Qed.

Lemma all_events_cons (r : car.CarState.t) (rets : list car.CarState.t) :
  all_events (r :: rets) = car.CarState.events r ++ all_events rets.
Proof. reflexivity. Qed.

Lemma gas_held_counts (env : Env) (cycles : list (car.CarControl.t * Decoded)) :
  ∀ self,
    Forall (fun r => car.CarState.gasPressed r = true
                     ∧ car.CarState.brakePressed r = false)
      (fst (run env self cycles)) →
    occurrences (create_event "pedalPressed" [ET.NO_ENTRY; ET.USER_DISABLE])
      (all_events (fst (run env self cycles)))
      = (if gas_pressed_prev self then 0 else match cycles with [] => 0 | _ => 1 end)
    ∧ occurrences (create_event "pedalPressed" [ET.PRE_ENABLE])
        (all_events (fst (run env self cycles)))
      = length cycles.
Proof.
  induction cycles as [|[c can] cycles IH]; intros self.
  - intros _. split; [destruct (gas_pressed_prev self)|]; reflexivity.
  - rewrite run_cons. cbn [fst length]. intros Hheld.
    apply Forall_cons in Hheld as [[Hgas Hbrake] Hrest].
    destruct (IH _ Hrest) as [IHover IHadv].
    destruct (pedal_event_counts env self c can) as [Hover Hadv].
    rewrite !all_events_cons, !occurrences_app, Hover, Hadv, IHover, IHadv.
    change (gas_pressed_prev (snd (update env self c can)))
      with (car.CarState.gasPressed (fst (update env self c can))).
    rewrite Hgas, Hbrake. cbn [andb orb].
    split; [destruct (gas_pressed_prev self); reflexivity | reflexivity].
Qed.

(** X6. The gas pedal override is edge-triggered: over consecutive cycles that
    all report the gas pressed and the brake released, starting with the gas
    released before, pedalPressed [NO_ENTRY, USER_DISABLE] occurs exactly
    once in the whole run while pedalPressed [PRE_ENABLE] occurs in every
    cycle. *)
Theorem gas_held_one_override (env : Env) (self : CarInterface)
    (cycles : list (car.CarControl.t * Decoded)) :
  gas_pressed_prev self = false →
  cycles ≠ [] →
  Forall (fun r => car.CarState.gasPressed r = true
                   ∧ car.CarState.brakePressed r = false)
    (fst (run env self cycles)) →
  occurrences (create_event "pedalPressed" [ET.NO_ENTRY; ET.USER_DISABLE])
    (all_events (fst (run env self cycles))) = 1
  ∧ occurrences (create_event "pedalPressed" [ET.PRE_ENABLE])
      (all_events (fst (run env self cycles))) = length cycles.
Proof.
  intros Hprev Hne Hheld.
  destruct (gas_held_counts env cycles self Hheld) as [Hover Hadv].
  rewrite Hover, Hadv, Hprev. destruct cycles; [contradiction|]. split; reflexivity.
Qed.

Lemma gas_held_one_override_witness :
  gas_pressed_prev (sample.interface (sample.params true true false (-1))) = false
  ∧ occurrences (create_event "pedalPressed" [ET.NO_ENTRY; ET.USER_DISABLE])
      (all_events
         (fst (run reference.env (sample.interface (sample.params true true false (-1)))
                 (replicate 4 (sample.control 0,
                               sample.decoded 0 (sample.drive 10 5 0 true false false))))))
    = 1
  ∧ occurrences (create_event "pedalPressed" [ET.PRE_ENABLE])
      (all_events
         (fst (run reference.env (sample.interface (sample.params true true false (-1)))
                 (replicate 4 (sample.control 0,
                               sample.decoded 0 (sample.drive 10 5 0 true false false))))))
    = 4.
Proof.
  split; [reflexivity|].
  apply (gas_held_one_override reference.env
           (sample.interface (sample.params true true false (-1)))
           (replicate 4 (sample.control 0,
                         sample.decoded 0 (sample.drive 10 5 0 true false false)))).
  - reflexivity.
  - discriminate.
  - vm_compute. repeat constructor.
Defined.

(** X7. The brake override is level-triggered while the car moves: over
    consecutive cycles that all report the brake pressed and [vEgo > 0.001],
    pedalPressed [NO_ENTRY, USER_DISABLE] is emitted in every cycle, whatever
    the state before. *)
Theorem brake_held_moving_every_cycle (env : Env)
    (cycles : list (car.CarControl.t * Decoded)) :
  ∀ self,
    Forall (fun r => car.CarState.brakePressed r = true
                     ∧ (0.001 <? car.CarState.vEgo r)%float = true)
      (fst (run env self cycles)) →
    Forall (fun r => create_event "pedalPressed" [ET.NO_ENTRY; ET.USER_DISABLE]
                     ∈ car.CarState.events r)
      (fst (run env self cycles))
    ∧ occurrences (create_event "pedalPressed" [ET.NO_ENTRY; ET.USER_DISABLE])
        (all_events (fst (run env self cycles)))
      = length cycles.
Proof.
  induction cycles as [|[c can] cycles IH]; intros self.
  - intros _. split; [constructor | reflexivity].
  - rewrite run_cons. cbn [fst length]. intros Hheld.
    apply Forall_cons in Hheld as [[Hbrake Hmoving] Hrest].
    destruct (IH _ Hrest) as [IHeach IHsum].
    pose proof (proj1 (pedal_event_counts env self c can)) as Hover.
    cbv zeta in Hover. rewrite Hbrake, Hmoving, orb_true_r in Hover.
    cbn [andb] in Hover. rewrite orb_true_r in Hover.
    split.
    + constructor; [|exact IHeach].
      apply occurrences_elem_of. rewrite Hover. lia.
    + rewrite all_events_cons, occurrences_app, Hover, IHsum. reflexivity.
Qed.

Lemma brake_held_moving_every_cycle_witness :
  occurrences (create_event "pedalPressed" [ET.NO_ENTRY; ET.USER_DISABLE])
    (all_events
       (fst (run reference.env (sample.interface (sample.params true true false (-1)))
               (replicate 3 (sample.control 0,
                             sample.decoded 0 (sample.drive 10 0 1 true false false))))))
  = 3.
Proof.
  apply (brake_held_moving_every_cycle reference.env
           (replicate 3 (sample.control 0,
                         sample.decoded 0 (sample.drive 10 0 1 true false false)))
           (sample.interface (sample.params true true false (-1)))).
  vm_compute. repeat constructor.
Defined.

(** ** The cruise engagement over consecutive cycles *)

(** X8. The engage request is edge-triggered: over consecutive cycles that all
    report the cruise state enabled, pcmEnable [ENABLE] is emitted once, in
    the first cycle, when the cruise state was disabled before, and not at all
    when it was enabled before; pcmDisable [USER_DISABLE] is never emitted. *)
Theorem engage_once_while_enabled (env : Env)
    (cycles : list (car.CarControl.t * Decoded)) :
  ∀ self,
    Forall (fun r => car.CarState.CruiseState.enabled (car.CarState.cruiseState r) = true)
      (fst (run env self cycles)) →
    occurrences (create_event "pcmEnable" [ET.ENABLE])
      (all_events (fst (run env self cycles)))
      = (if cruise_enabled_prev self then 0 else match cycles with [] => 0 | _ => 1 end)
    ∧ occurrences (create_event "pcmDisable" [ET.USER_DISABLE])
        (all_events (fst (run env self cycles))) = 0.
Proof.
  induction cycles as [|[c can] cycles IH]; intros self.
  - intros _. split; [destruct (cruise_enabled_prev self)|]; reflexivity.
  - rewrite run_cons. cbn [fst]. intros Hon.
    apply Forall_cons in Hon as [Hnow Hrest].
    destruct (IH _ Hrest) as [IHen IHdis].
    destruct (pcm_event_counts env self c can) as [Hen Hdis].
    cbv zeta in Hen, Hdis.
    change (pcm_acc_active (signals can) = true) in Hnow.
    rewrite !all_events_cons, !occurrences_app, Hen, Hdis, IHen, IHdis.
    change (cruise_enabled_prev (snd (update env self c can)))
      with (pcm_acc_active (signals can)).
    rewrite Hnow. cbn [andb].
    split; [destruct (cruise_enabled_prev self); reflexivity | reflexivity].
Qed.

Lemma engage_once_while_enabled_witness :
  occurrences (create_event "pcmEnable" [ET.ENABLE])
    (all_events
       (fst (run reference.env (sample.interface (sample.params true true false (-1)))
               (replicate 4 (sample.control 0,
                             sample.decoded 0 (sample.drive 10 0 0 true false false))))))
  = 1
  ∧ occurrences (create_event "pcmDisable" [ET.USER_DISABLE])
      (all_events
         (fst (run reference.env (sample.interface (sample.params true true false (-1)))
                 (replicate 4 (sample.control 0,
                               sample.decoded 0 (sample.drive 10 0 0 true false false))))))
    = 0.
Proof.
  apply (engage_once_while_enabled reference.env
           (replicate 4 (sample.control 0,
                         sample.decoded 0 (sample.drive 10 0 0 true false false)))
           (sample.interface (sample.params true true false (-1)))).
  vm_compute. repeat constructor.
Defined.

(** ** The first cycle of a fresh interface *)

(** X9. In the first cycle after [__init__] there is no previous sample: any
    pressed pedal counts as a rising edge, so pedalPressed
    [NO_ENTRY, USER_DISABLE] is emitted iff the gas or the brake is pressed,
    and an already active cruise state emits pcmEnable [ENABLE]. *)
Theorem first_cycle_after_init (env : Env) (CP : car.CarParams.t)
    (CS0 : CarState) (cp0 cp_cam0 : CANParser)
    (c : car.CarControl.t) (can : Decoded) :
  let ret := fst (update env (CarInterface_init CP CS0 cp0 cp_cam0) c can) in
  (create_event "pedalPressed" [ET.NO_ENTRY; ET.USER_DISABLE] ∈ car.CarState.events ret
     ↔ car.CarState.gasPressed ret = true ∨ car.CarState.brakePressed ret = true)
  ∧ (create_event "pcmEnable" [ET.ENABLE] ∈ car.CarState.events ret
       ↔ car.CarState.CruiseState.enabled (car.CarState.cruiseState ret) = true)
  ∧ (create_event "pcmDisable" [ET.USER_DISABLE] ∈ car.CarState.events ret
       ↔ car.CarState.CruiseState.enabled (car.CarState.cruiseState ret) = false).
Proof.
  intros ret.
  set (self := CarInterface_init CP CS0 cp0 cp_cam0) in *.
  destruct (pedal_event_counts env self c can) as [Hover _].
  destruct (pcm_event_counts env self c can) as [Hen Hdis].
  cbv zeta in Hover, Hen, Hdis. fold ret in Hover, Hen, Hdis.
  change (car.CarState.CruiseState.enabled (car.CarState.cruiseState ret))
    with (pcm_acc_active (signals can)).
  rewrite <- !occurrences_elem_of, Hover, Hen, Hdis.
  change (gas_pressed_prev self) with false.
  change (brake_pressed_prev self) with false.
  change (cruise_enabled_prev self) with false.
  cbn [negb orb]. rewrite !andb_true_r.
  destruct (car.CarState.gasPressed ret), (car.CarState.brakePressed ret),
    (pcm_acc_active (signals can)); cbn [orb];
    (split; [|split]); split; intros H;
    first [ lia | reflexivity | discriminate H
          | left; reflexivity | right; reflexivity
          | destruct H as [H|H]; discriminate H ].
Qed.

(** ** Button events over consecutive cycles *)

Section ButtonRuns.

Import car.CarState.

Lemma count_buttons_app t l1 l2 :
  count_buttons t (l1 ++ l2) = count_buttons t l1 + count_buttons t l2.
Proof. unfold count_buttons. rewrite List.filter_app, length_app. reflexivity. Qed.

Lemma buttonEvents_counts (env : Env) (self : CarInterface)
    (c : car.CarControl.t) (can : Decoded) :
  let ret := fst (update env self c can) in
  count_buttons ButtonEvent.Type_.leftBlinker (buttonEvents ret)
    = (if ne_bool (left_blinker_on (signals can)) (left_blinker_on (CS self))
       then 1 else 0)
  ∧ count_buttons ButtonEvent.Type_.rightBlinker (buttonEvents ret)
    = (if ne_bool (right_blinker_on (signals can)) (right_blinker_on (CS self))
       then 1 else 0).
Proof.
  intros ret. subst ret. unfold update. cbn [fst buttonEvents].
  cbn [CarState_update left_blinker_on prev_left_blinker_on
       right_blinker_on prev_right_blinker_on].
  destruct (ne_bool (left_blinker_on (signals can)) (left_blinker_on (CS self))),
    (ne_bool (right_blinker_on (signals can)) (right_blinker_on (CS self)));
    split; reflexivity.
Qed.

(** X10. A cycle emits at most one button event per side, the left one first:
    the button events are a subsequence of [left; right] carrying the new
    flags. *)
Theorem button_events_shape (env : Env) (self : CarInterface)
    (c : car.CarControl.t) (can : Decoded) :
  let ret := fst (update env self c can) in
  buttonEvents ret
    `sublist_of` button_order (left_blinker_on (signals can))
                              (right_blinker_on (signals can))
  ∧ length (buttonEvents ret) ≤ 2
  ∧ leftBlinker ret = left_blinker_on (signals can)
  ∧ rightBlinker ret = right_blinker_on (signals can).
Proof.
  intros ret.
  assert (Hsub : buttonEvents ret
            `sublist_of` button_order (left_blinker_on (signals can))
                                      (right_blinker_on (signals can))).
  { subst ret. unfold update, button_order. cbn [fst buttonEvents].
    cbn [CarState_update left_blinker_on prev_left_blinker_on
         right_blinker_on prev_right_blinker_on].
    replace (ne_bool (left_blinker_on (signals can)) false)
      with (left_blinker_on (signals can))
      by (destruct (left_blinker_on (signals can)); reflexivity).
    replace (ne_bool (right_blinker_on (signals can)) false)
      with (right_blinker_on (signals can))
      by (destruct (right_blinker_on (signals can)); reflexivity).
    apply sublist_when_cons.
    rewrite <- (app_nil_r (when _ _)). apply sublist_when_cons. constructor. }
  split; [exact Hsub|]. split; [|split; reflexivity].
  apply sublist_length in Hsub. exact Hsub.
Qed.

(** X11. Button events track the blinker flag: over any run, the left blinker
    flag held by the object at the end is its flag at the start, flipped once
    per left blinker event emitted in between (and likewise on the right). *)
Theorem blinker_flag_follows_events (env : Env)
    (cycles : list (car.CarControl.t * Decoded)) :
  ∀ self,
    left_blinker_on (CS (snd (run env self cycles)))
      = xorb (left_blinker_on (CS self))
             (Nat.odd (count_buttons ButtonEvent.Type_.leftBlinker
                         (all_buttonEvents (fst (run env self cycles)))))
    ∧ right_blinker_on (CS (snd (run env self cycles)))
      = xorb (right_blinker_on (CS self))
             (Nat.odd (count_buttons ButtonEvent.Type_.rightBlinker
                         (all_buttonEvents (fst (run env self cycles))))).
Proof.
  induction cycles as [|[c can] cycles IH]; intros self.
  - cbn. rewrite !xorb_false_r. split; reflexivity.
  - rewrite run_cons. cbn [fst snd].
    destruct (IH (snd (update env self c can))) as [IHl IHr].
    destruct (buttonEvents_counts env self c can) as [Hl Hr]. cbv zeta in Hl, Hr.
    unfold all_buttonEvents in *. cbn [map concat].
    rewrite !count_buttons_app, Hl, Hr, IHl, IHr.
    change (left_blinker_on (CS (snd (update env self c can))))
      with (left_blinker_on (signals can)).
    change (right_blinker_on (CS (snd (update env self c can))))
      with (right_blinker_on (signals can)).
    unfold ne_bool.
    split.
    + destruct (left_blinker_on (signals can)), (left_blinker_on (CS self));
        cbn [Bool.eqb negb Nat.add]; rewrite ?Nat.odd_succ, <- ?Nat.negb_odd;
        match goal with |- context [Nat.odd ?n] => destruct (Nat.odd n) end;
        reflexivity.
    + destruct (right_blinker_on (signals can)), (right_blinker_on (CS self));
        cbn [Bool.eqb negb Nat.add]; rewrite ?Nat.odd_succ, <- ?Nat.negb_odd;
        match goal with |- context [Nat.odd ?n] => destruct (Nat.odd n) end;
        reflexivity.
Qed.

End ButtonRuns.

(** ** What a run leaves in the object *)

(** X12. [update] never touches the parameters nor the frame counter, and the
    camera forwarding flag is a latch: after any run the object has its
    initial [CP] and [frame], [forwarding_camera] is true iff it was true
    before or the camera parser was valid in some cycle, and one message was
    returned per cycle. *)
Theorem run_leaves_parameters (env : Env)
    (cycles : list (car.CarControl.t * Decoded)) :
  ∀ self,
    CP (snd (run env self cycles)) = CP self
    ∧ frame (snd (run env self cycles)) = frame self
    ∧ forwarding_camera (snd (run env self cycles))
      = forwarding_camera self
        || existsb (fun cyc : car.CarControl.t * Decoded => can_valid (dec_cp_cam cyc.2))
             cycles
    ∧ length (fst (run env self cycles)) = length cycles.
Proof.
  induction cycles as [|[c can] cycles IH]; intros self.
  - cbn. rewrite orb_false_r. repeat split.
  - rewrite run_cons. cbn [fst snd existsb length].
    destruct (IH (snd (update env self c can))) as (HCP & Hframe & Hfwd & Hlen).
    rewrite HCP, Hframe, Hfwd, Hlen.
    repeat split.
    change (forwarding_camera (snd (update env self c can)))
      with (if can_valid (dec_cp_cam can) then true else forwarding_camera self).
    destruct (can_valid (dec_cp_cam can)), (forwarding_camera self); reflexivity.
Qed.

(** X13. With [NO_STOP_TIMER_CAR] empty the vehicle identity never matters for
    the cruise standstill flag: it is reported iff no gas interceptor is
    present and the PCM status code equals 7. *)
Theorem cruise_standstill_report (env : Env) (self : CarInterface)
    (c : car.CarControl.t) (can : Decoded) :
  car.CarState.CruiseState.standstill
    (car.CarState.cruiseState (fst (update env self c can)))
  = negb (car.CarParams.enableGasInterceptor (CP self))
    && (pcm_acc_status (signals can) =? 7)%float.
Proof.
  unfold update. cbn [fst car.CarState.cruiseState car.CarState.CruiseState.standstill].
  unfold NO_STOP_TIMER_CAR.
  rewrite (bool_decide_eq_false_2 (car.CarParams.carFingerprint (CP self) ∈ []))
    by apply not_elem_of_nil.
  destruct (car.CarParams.enableGasInterceptor (CP self)); reflexivity.
Qed.

(** ** More on parameter derivation *)

(** Runs [get_params] on [CAR.OLD_CAR] up to the lookups of bus 0. *)
Ltac step_get_params :=
  unfold get_params;
  rewrite ?(bool_decide_eq_true_2 (CAR.OLD_CAR = CAR.OLD_CAR)) by reflexivity;
  unfold getitem.

Ltac run_get_params :=
  cbv beta iota zeta delta [mbind result_bind local Ok Raise];
  match goal with
  | |- context [scale_tire_stiffness ?e ?m ?w ?f ?t] =>
      destruct (scale_tire_stiffness e m w f t)
  end.

Lemma get_params_no_bus (env : Env) (fingerprint : gmap Z (gmap Z Z))
    (vin : string) (has_relay : bool) :
  fingerprint !! 0%Z = None →
  get_params env CAR.OLD_CAR fingerprint vin has_relay = Raise (KeyError 0).
Proof.
  intros Hfp. step_get_params. rewrite Hfp. run_get_params. reflexivity.
Qed.

(** X14. [get_params] returns a record exactly for [CAR.OLD_CAR] with a
    fingerprint that has a map for bus 0; for [CAR.OLD_CAR] without one,
    [fingerprint[0]] raises [KeyError] at line 105. *)
Theorem get_params_outcome (env : Env) (candidate : string)
    (fingerprint : gmap Z (gmap Z Z)) (vin : string) (has_relay : bool) :
  ((∃ ret, get_params env candidate fingerprint vin has_relay = Ok ret)
     ↔ candidate = CAR.OLD_CAR ∧ is_Some (fingerprint !! 0%Z))
  ∧ (candidate = CAR.OLD_CAR → fingerprint !! 0%Z = None →
     get_params env candidate fingerprint vin has_relay = Raise (KeyError 0)).
Proof.
  split.
  - split.
    + intros [ret Hret].
      destruct (decide (candidate = CAR.OLD_CAR)) as [->|Hne].
      * split; [reflexivity|].
        destruct (fingerprint !! 0%Z) as [fp0|] eqn:Hfp; [eexists; reflexivity|].
        rewrite (get_params_no_bus env _ _ _ Hfp) in Hret. discriminate Hret.
      * rewrite (get_params_unknown env _ _ _ _ Hne) in Hret. discriminate Hret.
    + intros [-> [fp0 Hfp]].
      destruct (get_params_OLD_CAR env fingerprint fp0 vin has_relay Hfp)
        as (ret & Hret & _).
      exists ret. exact Hret.
  - intros -> Hfp. apply get_params_no_bus. exact Hfp.
Qed.

Lemma get_params_outcome_witness :
  CAR.OLD_CAR = CAR.OLD_CAR
  ∧ (∅ : gmap Z (gmap Z Z)) !! 0%Z = None
  ∧ get_params reference.env CAR.OLD_CAR ∅ "" false = Raise (KeyError 0).
Proof.
  split; [reflexivity|]. split; [reflexivity|].
  apply (proj2 (get_params_outcome reference.env CAR.OLD_CAR ∅ "" false)); reflexivity.
Defined.

(** X15. [get_params] reads the fingerprint at bus 0 only: fingerprints that
    agree there give the same outcome, so a message seen on another bus,
    the interceptor's included, changes nothing. *)
Theorem get_params_reads_bus_0_only (env : Env) (candidate : string)
    (fingerprint fingerprint' : gmap Z (gmap Z Z)) (vin : string) (has_relay : bool) :
  fingerprint !! 0%Z = fingerprint' !! 0%Z →
  get_params env candidate fingerprint vin has_relay
  = get_params env candidate fingerprint' vin has_relay.
Proof.
  intros Hsame. unfold get_params, getitem. rewrite Hsame. reflexivity.
Qed.

Lemma get_params_reads_bus_0_only_witness :
  sample.empty_fingerprint !! 0%Z
  = (<[ 1%Z := {[ 0x201%Z := 6%Z ]} ]> sample.empty_fingerprint) !! 0%Z
  ∧ get_params reference.env CAR.OLD_CAR sample.empty_fingerprint "" false
    = get_params reference.env CAR.OLD_CAR
        (<[ 1%Z := {[ 0x201%Z := 6%Z ]} ]> sample.empty_fingerprint) "" false.
Proof.
  split; [reflexivity|].
  apply (get_params_reads_bus_0_only reference.env CAR.OLD_CAR). reflexivity.
Defined.

(** The record returned for the registered identity, as far as the
    properties below need it. *)
Lemma get_params_OLD_CAR_flags (env : Env) (fingerprint : gmap Z (gmap Z Z))
    (fp0 : gmap Z Z) (vin : string) (has_relay : bool) :
  fingerprint !! 0%Z = Some fp0 →
  ∃ ret, get_params env CAR.OLD_CAR fingerprint vin has_relay = Ok ret
    ∧ car.CarParams.enableApgs ret = false
    ∧ car.CarParams.openpilotLongitudinalControl ret
      = car.CarParams.enableCamera ret && car.CarParams.enableDsu ret
    ∧ car.CarParams.enableDsu ret
      = is_ecu_disconnected env fp0 FINGERPRINTS ECU_FINGERPRINT CAR.OLD_CAR ECU.DSU
    ∧ car.CarParams.enableGasInterceptor ret = bool_decide (is_Some (fp0 !! 0x201%Z))
    ∧ car.CarParams.minEnableSpeed ret = (-1)%float
    ∧ (is_Some (fp0 !! 0x201%Z) →
       car.CarParams.gasMaxBP ret = [0%float; 9%float; 35%float]
       ∧ car.CarParams.gasMaxV ret = map f32 [0.2%float; 0.5%float; 0.7%float]
       ∧ car.CarParams.LongitudinalPIDTuning.kpV (car.CarParams.longitudinalTuning ret)
         = map f32 [1.2%float; 0.8%float; 0.5%float]
       ∧ car.CarParams.LongitudinalPIDTuning.kiV (car.CarParams.longitudinalTuning ret)
         = map f32 [0.18%float; 0.12%float]).
Proof.
  intros Hfp. step_get_params. rewrite Hfp. run_get_params.
  unfold TSS2_CAR.
  rewrite (bool_decide_eq_false_2 (CAR.OLD_CAR ∈ [])) by apply not_elem_of_nil.
  rewrite andb_false_r, orb_false_r.
  destruct (bool_decide (is_Some (fp0 !! 0x201%Z))) eqn:Hint;
    (eexists; split; [reflexivity|]);
    do 5 (split; [reflexivity|]);
    intros Hyes;
    first [ apply (bool_decide_eq_true_2 _) in Hyes; congruence
          | repeat split; reflexivity ].
Qed.

(** X16. With the interceptor message 0x201 on bus 0, [get_params] for
    [CAR.OLD_CAR] returns the interceptor tuning as the message stores
    it, in single precision: breakpoints [0, 9, 35] (exact), gas limit
    curve [f32 0.2, f32 0.5, f32 0.7], which reads back as
    [0.20000000298023224, 0.5, 0.699999988079071], and longitudinal
    gains kpV = [f32 1.2, f32 0.8, f32 0.5], read back as
    [1.2000000476837158, 0.800000011920929, 0.5], and
    kiV = [f32 0.18, f32 0.12], read back as
    [0.18000000715255737, 0.11999999731779099]. *)
Theorem interceptor_tuning (env : Env) (fingerprint : gmap Z (gmap Z Z))
    (fp0 : gmap Z Z) (vin : string) (has_relay : bool) :
  fingerprint !! 0%Z = Some fp0 →
  is_Some (fp0 !! 0x201%Z) →
  ∃ ret, get_params env CAR.OLD_CAR fingerprint vin has_relay = Ok ret
    ∧ car.CarParams.enableGasInterceptor ret = true
    ∧ car.CarParams.gasMaxBP ret = [0%float; 9%float; 35%float]
    ∧ car.CarParams.gasMaxV ret = map f32 [0.2%float; 0.5%float; 0.7%float]
    ∧ car.CarParams.gasMaxV ret
      = [0.20000000298023224%float; 0.5%float; 0.69999998807907104%float]
    ∧ car.CarParams.LongitudinalPIDTuning.kpV (car.CarParams.longitudinalTuning ret)
      = map f32 [1.2%float; 0.8%float; 0.5%float]
    ∧ car.CarParams.LongitudinalPIDTuning.kpV (car.CarParams.longitudinalTuning ret)
      = [1.2000000476837158%float; 0.80000001192092896%float; 0.5%float]
    ∧ car.CarParams.LongitudinalPIDTuning.kiV (car.CarParams.longitudinalTuning ret)
      = map f32 [0.18%float; 0.12%float]
    ∧ car.CarParams.LongitudinalPIDTuning.kiV (car.CarParams.longitudinalTuning ret)
      = [0.18000000715255737%float; 0.11999999731779099%float].
Proof.
  intros Hfp Hint.
  destruct (get_params_OLD_CAR_flags env fingerprint fp0 vin has_relay Hfp)
    as (ret & Hret & _ & _ & _ & Hgas & _ & Hcurves).
  destruct (Hcurves Hint) as (HBP & HV & Hkp & Hki).
  exists ret. split; [exact Hret|]. split.
  - rewrite Hgas. apply bool_decide_eq_true_2. exact Hint.
  - split; [exact HBP|].
    split; [exact HV|]. split; [rewrite HV; reflexivity|].
    split; [exact Hkp|]. split; [rewrite Hkp; reflexivity|].
    split; [exact Hki|]. rewrite Hki. reflexivity.
Qed.

Lemma interceptor_tuning_witness :
  sample.interceptor_fingerprint !! 0%Z = Some {[ 0x201%Z := 6%Z ]}
  ∧ is_Some (({[ 0x201%Z := 6%Z ]} : gmap Z Z) !! 0x201%Z)
  ∧ ∃ ret, get_params reference.env CAR.OLD_CAR sample.interceptor_fingerprint "" false
           = Ok ret
      ∧ car.CarParams.enableGasInterceptor ret = true
      ∧ car.CarParams.gasMaxBP ret = [0%float; 9%float; 35%float]
      ∧ car.CarParams.gasMaxV ret = map f32 [0.2%float; 0.5%float; 0.7%float]
      ∧ car.CarParams.gasMaxV ret
        = [0.20000000298023224%float; 0.5%float; 0.69999998807907104%float]
      ∧ car.CarParams.LongitudinalPIDTuning.kpV (car.CarParams.longitudinalTuning ret)
        = map f32 [1.2%float; 0.8%float; 0.5%float]
      ∧ car.CarParams.LongitudinalPIDTuning.kpV (car.CarParams.longitudinalTuning ret)
        = [1.2000000476837158%float; 0.80000001192092896%float; 0.5%float]
      ∧ car.CarParams.LongitudinalPIDTuning.kiV (car.CarParams.longitudinalTuning ret)
        = map f32 [0.18%float; 0.12%float]
      ∧ car.CarParams.LongitudinalPIDTuning.kiV (car.CarParams.longitudinalTuning ret)
        = [0.18000000715255737%float; 0.11999999731779099%float].
Proof.
  split; [reflexivity|]. split; [eexists; reflexivity|].
  apply (interceptor_tuning reference.env sample.interceptor_fingerprint
           {[ 0x201%Z := 6%Z ]} "" false);
    [reflexivity | eexists; reflexivity].
Defined.

Lemma get_params_Ok_inv (env : Env) (candidate : string)
    (fingerprint : gmap Z (gmap Z Z)) (vin : string) (has_relay : bool)
    (ret : car.CarParams.t) :
  get_params env candidate fingerprint vin has_relay = Ok ret →
  candidate = CAR.OLD_CAR ∧ ∃ fp0, fingerprint !! 0%Z = Some fp0.
Proof.
  intros Hret.
  destruct (decide (candidate = CAR.OLD_CAR)) as [->|Hne].
  - split; [reflexivity|].
    destruct (fingerprint !! 0%Z) as [fp0|] eqn:Hfp; [eexists; reflexivity|].
    rewrite (get_params_no_bus env _ _ _ Hfp) in Hret. discriminate Hret.
  - rewrite (get_params_unknown env _ _ _ _ Hne) in Hret. discriminate Hret.
Qed.

(** X17. Whatever record [get_params] returns has [enableApgs] false and
    [openpilotLongitudinalControl] equal to [enableCamera and enableDsu],
    where [enableDsu] is the ECU detector's answer alone: the relay flag
    cannot give longitudinal control when the detector finds the DSU. *)
Theorem longitudinal_control_needs_detector (env : Env) (candidate : string)
    (fingerprint : gmap Z (gmap Z Z)) (vin : string) (has_relay : bool)
    (ret : car.CarParams.t) :
  get_params env candidate fingerprint vin has_relay = Ok ret →
  car.CarParams.enableApgs ret = false
  ∧ car.CarParams.openpilotLongitudinalControl ret
    = car.CarParams.enableCamera ret && car.CarParams.enableDsu ret
  ∧ ∃ fp0, fingerprint !! 0%Z = Some fp0
      ∧ (car.CarParams.openpilotLongitudinalControl ret = true →
         is_ecu_disconnected env fp0 FINGERPRINTS ECU_FINGERPRINT candidate ECU.DSU
         = true).
Proof.
  intros Hret.
  destruct (get_params_Ok_inv env _ _ _ _ _ Hret) as [-> [fp0 Hfp]].
  destruct (get_params_OLD_CAR_flags env fingerprint fp0 vin has_relay Hfp)
    as (ret' & Hret' & Hapgs & Hlong & Hdsu & _).
  rewrite Hret in Hret'. injection Hret' as <-.
  split; [exact Hapgs|]. split; [exact Hlong|].
  exists fp0. split; [exact Hfp|].
  rewrite Hlong, <- Hdsu. intros [_ H]%andb_true_iff. exact H.
Qed.

Lemma longitudinal_control_needs_detector_witness :
  ∃ ret, get_params reference.env CAR.OLD_CAR sample.observed_fingerprint "" true
         = Ok ret
    ∧ car.CarParams.enableApgs ret = false
    ∧ car.CarParams.openpilotLongitudinalControl ret
      = car.CarParams.enableCamera ret && car.CarParams.enableDsu ret.
Proof.
  destruct (get_params reference.env CAR.OLD_CAR sample.observed_fingerprint "" true)
    as [err|ret] eqn:Hret; [vm_compute in Hret; discriminate Hret|].
  exists ret. split; [reflexivity|].
  destruct (longitudinal_control_needs_detector reference.env CAR.OLD_CAR
              sample.observed_fingerprint "" true ret Hret) as (Hapgs & Hlong & _).
  split; assumption.
Defined.

(** ** Derived parameters driving a cycle *)

(** X18. Every record [get_params] returns has [minEnableSpeed = -1]: the
    19 mph floor of line 117 is never taken.  So an interface built on it
    emits speedTooLow [NO_ENTRY] only in a cycle with [vEgo < -1] and the DSU
    flag set, and its gas threshold is 15 exactly when message 0x201 is on
    bus 0 of the fingerprint. *)
Theorem derived_parameters_in_update (env : Env) (candidate : string)
    (fingerprint : gmap Z (gmap Z Z)) (vin : string) (has_relay : bool)
    (params : car.CarParams.t) (self : CarInterface)
    (c : car.CarControl.t) (can : Decoded) :
  get_params env candidate fingerprint vin has_relay = Ok params →
  CP self = params →
  let ret := fst (update env self c can) in
  car.CarParams.minEnableSpeed params = (-1)%float
  ∧ (create_event "speedTooLow" [ET.NO_ENTRY] ∈ car.CarState.events ret
       ↔ (car.CarState.vEgo ret <? -1)%float = true
         ∧ car.CarParams.enableDsu params = true)
  ∧ ∃ fp0, fingerprint !! 0%Z = Some fp0
      ∧ car.CarState.gasPressed ret
        = if bool_decide (is_Some (fp0 !! 0x201%Z))
          then (15 <? pedal_gas (signals can))%float
          else (0 <? pedal_gas (signals can))%float.
Proof.
  intros Hret HCP ret.
  destruct (get_params_Ok_inv env _ _ _ _ _ Hret) as [-> [fp0 Hfp]].
  destruct (get_params_OLD_CAR_flags env fingerprint fp0 vin has_relay Hfp)
    as (ret' & Hret' & _ & _ & _ & Hgas & Hmin & _).
  rewrite Hret in Hret'. injection Hret' as <-.
  split; [exact Hmin|]. split.
  - subst ret. by_rule. rewrite HCP, Hmin.
    change (car.CarState.vEgo (fst (update env self c can)))
      with (f32 (v_ego (signals can))).
    split.
    + intros H. rule_cases.
      match goal with G : _ && _ = true |- _ => apply andb_true_iff in G as [Hv Hd] end.
      split; assumption.
    + intros [Hv Hd]. do 9 right. left. split; [|left; reflexivity].
      apply andb_true_iff. split; assumption.
  - exists fp0. split; [exact Hfp|].
    subst ret. rewrite update_gasPressed, HCP, Hgas. reflexivity.
Qed.

Lemma derived_parameters_in_update_witness :
  get_params reference.env CAR.OLD_CAR sample.interceptor_fingerprint "" false
  = Ok derived_params
  ∧ CP (sample.interface derived_params) = derived_params
  ∧ car.CarParams.minEnableSpeed derived_params = (-1)%float
  ∧ car.CarState.gasPressed
      (fst (update reference.env (sample.interface derived_params) (sample.control 0)
              (sample.decoded 0 (sample.drive 10 15 0 true false false)))) = false.
Proof.
  assert (Hret : get_params reference.env CAR.OLD_CAR sample.interceptor_fingerprint
                   "" false = Ok derived_params) by (vm_compute; reflexivity).
  split; [exact Hret|]. split; [reflexivity|].
  destruct (derived_parameters_in_update reference.env CAR.OLD_CAR
              sample.interceptor_fingerprint "" false derived_params
              (sample.interface derived_params) (sample.control 0)
              (sample.decoded 0 (sample.drive 10 15 0 true false false))
              Hret eq_refl) as (Hmin & _ & fp0 & Hfp & Hgas).
  split; [exact Hmin|].
  rewrite Hgas. injection Hfp as <-. reflexivity.
Defined.

(** ** The registered fingerprints *)

(** X19. Every fingerprint row registered for [CAR.OLD_CAR] contains message
    513 = 0x201, the interceptor's: observed on bus 0, each of them makes
    [get_params] detect the gas interceptor and choose its gas limit curve,
    stored in single precision as [f32 0.2, f32 0.5, f32 0.7], which reads
    back as [0.20000000298023224, 0.5, 0.699999988079071]. *)
Theorem registered_rows_detect_interceptor (env : Env) (rows : list (gmap Z Z))
    (row : gmap Z Z) (fingerprint : gmap Z (gmap Z Z)) (vin : string)
    (has_relay : bool) :
  FINGERPRINTS !! CAR.OLD_CAR = Some rows →
  row ∈ rows →
  fingerprint !! 0%Z = Some row →
  ∃ ret, get_params env CAR.OLD_CAR fingerprint vin has_relay = Ok ret
    ∧ car.CarParams.enableGasInterceptor ret = true
    ∧ car.CarParams.gasMaxV ret = map f32 [0.2%float; 0.5%float; 0.7%float]
    ∧ car.CarParams.gasMaxV ret
      = [0.20000000298023224%float; 0.5%float; 0.69999998807907104%float].
Proof.
  intros Hrows Hrow Hfp.
  assert (Hint : is_Some (row !! 0x201%Z)).
  { assert (Hreg : FINGERPRINTS !! CAR.OLD_CAR
                   = Some [OLD_CAR_row 8; OLD_CAR_row 1; OLD_CAR_row 4])
      by reflexivity.
    rewrite Hreg in Hrows. injection Hrows as <-.
    rewrite !elem_of_cons, elem_of_nil in Hrow.
    destruct Hrow as [->|[->|[->|[]]]]; exists 6%Z; reflexivity. }
  destruct (get_params_OLD_CAR_flags env fingerprint row vin has_relay Hfp)
    as (ret & Hret & _ & _ & _ & Hgas & _ & Hcurves).
  destruct (Hcurves Hint) as (_ & HV & _).
  exists ret. split; [exact Hret|]. split.
  - rewrite Hgas. apply bool_decide_eq_true_2. exact Hint.
  - split; [exact HV|]. rewrite HV. reflexivity.
Qed.

Lemma registered_rows_detect_interceptor_witness :
  FINGERPRINTS !! CAR.OLD_CAR = Some [OLD_CAR_row 8; OLD_CAR_row 1; OLD_CAR_row 4]
  ∧ OLD_CAR_row 8 ∈ [OLD_CAR_row 8; OLD_CAR_row 1; OLD_CAR_row 4]
  ∧ sample.observed_fingerprint !! 0%Z = Some (OLD_CAR_row 8)
  ∧ ∃ ret, get_params reference.env CAR.OLD_CAR sample.observed_fingerprint "" false
           = Ok ret
      ∧ car.CarParams.enableGasInterceptor ret = true
      ∧ car.CarParams.gasMaxV ret = map f32 [0.2%float; 0.5%float; 0.7%float]
      ∧ car.CarParams.gasMaxV ret
        = [0.20000000298023224%float; 0.5%float; 0.69999998807907104%float].
Proof.
  split; [reflexivity|]. split; [left|]. split; [reflexivity|].
  apply (registered_rows_detect_interceptor reference.env
           [OLD_CAR_row 8; OLD_CAR_row 1; OLD_CAR_row 4] (OLD_CAR_row 8)
           sample.observed_fingerprint "" false);
    [reflexivity | left | reflexivity].
Defined.

(** ** What the VIN and the relay flag reach *)

(** X20. The VIN is informational: calling [get_params] with another VIN
    returns the same record but for [carVin], or raises the same error. *)
Theorem vin_only_sets_carVin (env : Env) (candidate : string)
    (fingerprint : gmap Z (gmap Z Z)) (vin vin' : string) (has_relay : bool) :
  get_params env candidate fingerprint vin' has_relay
  = match get_params env candidate fingerprint vin has_relay with
    | inr ret => Ok (with_carVin vin' ret)
    | inl err => Raise err
    end.
Proof.
  destruct (decide (candidate = CAR.OLD_CAR)) as [->|Hne].
  - destruct (fingerprint !! 0%Z) as [fp0|] eqn:Hfp.
    + step_get_params. rewrite Hfp. run_get_params.
      destruct (bool_decide (is_Some (fp0 !! 0x201%Z))); reflexivity.
    + rewrite !(get_params_no_bus env _ _ _ Hfp). reflexivity.
  - rewrite !(get_params_unknown env _ _ _ _ Hne). reflexivity.
Qed.

(** X21. The relay flag reaches three fields only: a call with the flag set
    returns the record of the call without it with [isPandaBlack] and
    [enableCamera] true and [openpilotLongitudinalControl] equal to
    [enableDsu]; every tuning value and [enableDsu] itself are the same, and
    so is any error. *)
Theorem relay_reaches_three_fields (env : Env) (candidate : string)
    (fingerprint : gmap Z (gmap Z Z)) (vin : string) :
  get_params env candidate fingerprint vin true
  = match get_params env candidate fingerprint vin false with
    | inr ret => Ok (with_relay ret)
    | inl err => Raise err
    end.
Proof.
  destruct (decide (candidate = CAR.OLD_CAR)) as [->|Hne].
  - destruct (fingerprint !! 0%Z) as [fp0|] eqn:Hfp.
    + step_get_params. rewrite Hfp. run_get_params.
      unfold TSS2_CAR.
      rewrite (bool_decide_eq_false_2 (CAR.OLD_CAR ∈ [])) by apply not_elem_of_nil.
      rewrite !andb_false_r, !orb_false_r, !orb_true_r.
      destruct (bool_decide (is_Some (fp0 !! 0x201%Z))); reflexivity.
    + rewrite !(get_params_no_bus env _ _ _ Hfp). reflexivity.
  - rewrite !(get_params_unknown env _ _ _ _ Hne). reflexivity.
Qed.

(** ** The static message table *)

(** X22. [STATIC_MSGS] is well-formed: the 22 addresses are pairwise distinct,
    every payload has between 1 and 8 bytes in 0..255, every row is sent on
    bus 0 or 1 with a positive period for the camera or the DSU (none for the
    parking assist), and no row uses a message id of the ECU detection. *)
Theorem static_msgs_well_formed :
  NoDup (map StaticMsg.addr STATIC_MSGS)
  ∧ length STATIC_MSGS = 22
  ∧ Forall (fun m =>
              (1 ≤ length (StaticMsg.vl m) ≤ 8)
              ∧ Forall (fun b => (0 ≤ b < 256)%Z) (StaticMsg.vl m)
              ∧ (StaticMsg.bus m = 0 ∨ StaticMsg.bus m = 1)%Z
              ∧ (0 < StaticMsg.period m)%Z
              ∧ (StaticMsg.ecu m = ECU.CAM ∨ StaticMsg.ecu m = ECU.DSU)
              ∧ StaticMsg.cars m = CAR.OLD_CAR
              ∧ StaticMsg.addr m ∉ detection_ids)
      STATIC_MSGS.
Proof.
  split; [|split].
  - apply (bool_decide_unpack _). vm_compute. reflexivity.
  - reflexivity.
  - apply Forall_forall. intros m Hm.
    unfold STATIC_MSGS in Hm. rewrite !elem_of_cons, elem_of_nil in Hm.
    repeat (destruct Hm as [->|Hm]; [ | ]); try contradiction;
      (split; [cbn; lia|]);
      (split; [cbn [StaticMsg.vl]; repeat constructor; lia|]);
      (split; [cbn; auto|]);
      (split; [cbn; lia|]);
      (split; [cbn; auto|]);
      (split; [reflexivity|]);
      apply (bool_decide_unpack _); vm_compute; reflexivity.
Qed.
